(** * Document uploader ([excel.py]): a shallow embedding and its properties

    The script reads a spreadsheet of document links, downloads every
    document and uploads it, with a metadata record, to a storage and
    catalog backend.  This development embeds its functions in Rocq:

    - [PyStr], [PathLib]: the Python string and [pathlib] operations the
      script relies on ([in], [split], [strip], [lower], [Path.suffix]);
    - [Classifier]: [get_file_type];
    - [Resolver]: the sharing-link rewrite at the head of [download_file];
    - [Py]: Python values, exceptions, the outside world (network, files,
      clock, identifier source) and a state-and-exception monad over it;
    - [Ingestor]: [supabase_upload_file], [supabase_insert_record] and
      [upload_to_supabase];
    - [Fetcher]: [download_file];
    - [Orchestrator]: [parse_arguments] and [main].

    Text is modelled as [string], read as the UTF-8 bytes of a Python
    [str]: a character is one to four bytes.  Cutting and searching work
    on the bytes (a piece of UTF-8 text occurs in another at character
    boundaries only); [strip()] and [isspace()] work on characters and
    know the Unicode blanks; the lower-casing table of [str.lower()] is
    a parameter.  Console output is not modelled. *)

From Stdlib Require Import ZArith List Bool Lia Ascii.
From Stdlib Require String.
From stdpp Require Import base option list gmap strings.

Local Open Scope Z_scope.
#[local] Set Warnings "-register-all".
#[local] Set Warnings "-notation-overridden".


(* ===================================================================== *)
(** * Python string operations *)
(* ===================================================================== *)

Module PyStr.

(** [s.startswith(p)] *)
Fixpoint startswith (p s : string) : bool :=
  match p, s with
  | EmptyString, _ => true
  | String a p', String b s' => Ascii.eqb a b && startswith p' s'
  | String _ _, EmptyString => false
  end.

(** [s[n:]] *)
Fixpoint drop (n : nat) (s : string) : string :=
  match n, s with
  | O, _ => s
  | S _, EmptyString => EmptyString
  | S n', String _ s' => drop n' s'
  end.

(** [s.partition(sep)] when [sep] occurs in [s]: the text before the
    first (leftmost) occurrence and the text after it. *)
Fixpoint partition (sep s : string) : option (string * string) :=
  if startswith sep s then Some (EmptyString, drop (String.length sep) s)
  else match s with
       | EmptyString => None
       | String c s' =>
           match partition sep s' with
           | Some (p, r) => Some (String c p, r)
           | None => None
           end
       end.

(** [sub in s] *)
Definition contains (sub s : string) : bool :=
  match partition sub s with Some _ => true | None => false end.

(** [s.split(sep)] for a non-empty [sep]: cut at the non-overlapping
    occurrences of [sep], scanning from the left.  Every cut removes at
    least one character, so [S (length s)] rounds are enough. *)
Fixpoint split_fuel (fuel : nat) (sep s : string) : list string :=
  match fuel with
  | O => [s]
  | S fuel' =>
      match partition sep s with
      | None => [s]
      | Some (p, r) => p :: split_fuel fuel' sep r
      end
  end.

Definition split (sep s : string) : list string :=
  split_fuel (S (String.length s)) sep s.

(** The first piece of a [split]: the text before the first occurrence
    of [sep], all of [s] when there is none. *)
Definition first_piece (sep s : string) : string :=
  match partition sep s with
  | Some (p, _) => p
  | None => s
  end.

(** [c in chars] for an ASCII character, which is one byte *)
Fixpoint mem (c : ascii) (chars : string) : bool :=
  match chars with
  | EmptyString => false
  | String a chars' => Ascii.eqb c a || mem c chars'
  end.

Definition is_empty (s : string) : bool :=
  match s with EmptyString => true | String _ _ => false end.

(** [s.lstrip(chars)], [s.rstrip(chars)], [s.strip(chars)] for ASCII
    [chars]: the bytes of these characters are theirs alone. *)
Fixpoint lstrip_by (f : ascii -> bool) (s : string) : string :=
  match s with
  | EmptyString => EmptyString
  | String c s' => if f c then lstrip_by f s' else s
  end.

Fixpoint rstrip_by (f : ascii -> bool) (s : string) : string :=
  match s with
  | EmptyString => EmptyString
  | String c s' =>
      let r := rstrip_by f s' in
      if is_empty r && f c then EmptyString else String c r
  end.

Definition strip_by (f : ascii -> bool) (s : string) : string :=
  rstrip_by f (lstrip_by f s).

Definition lstrip (chars s : string) : string := lstrip_by (fun c => mem c chars) s.
Definition strip (chars s : string) : string := strip_by (fun c => mem c chars) s.

(** The characters of a text.  In UTF-8 a character is a byte that is
    not a continuation byte (0x80 to 0xBF), followed by the continuation
    bytes that belong to it. *)
Definition is_continuation (b : ascii) : bool :=
  let n := nat_of_ascii b in ((128 <=? n) && (n <=? 191))%nat.

Definition continued (s : string) : bool :=
  match s with
  | EmptyString => false
  | String b _ => is_continuation b
  end.

(** [list(s)]: the characters of [s] in order, each as its bytes. *)
Fixpoint characters (s : string) : list string :=
  match s with
  | EmptyString => []
  | String b s' =>
      if continued s' then
        match characters s' with
        | c :: cs => String b c :: cs
        | [] => [String b EmptyString]
        end
      else String b EmptyString :: characters s'
  end.

(** [''.join(cs)] *)
Fixpoint join (cs : list string) : string :=
  match cs with
  | [] => EmptyString
  | c :: cs' => c +:+ join cs'
  end.

(** [chr(cp)] as its UTF-8 bytes: one byte below 0x80, two below 0x800,
    three below 0x10000, four from there on. *)
Definition chr (cp : N) : string :=
  (if cp <? 128 then String (ascii_of_N cp) EmptyString
   else if cp <? 2048 then
     String (ascii_of_N (192 + cp / 64))
       (String (ascii_of_N (128 + cp mod 64)) EmptyString)
   else if cp <? 65536 then
     String (ascii_of_N (224 + cp / 4096))
       (String (ascii_of_N (128 + (cp / 64) mod 64))
          (String (ascii_of_N (128 + cp mod 64)) EmptyString))
   else
     String (ascii_of_N (240 + cp / 262144))
       (String (ascii_of_N (128 + (cp / 4096) mod 64))
          (String (ascii_of_N (128 + (cp / 64) mod 64))
             (String (ascii_of_N (128 + cp mod 64)) EmptyString))))%N.

(** The code points [cp] with [chr(cp).isspace()], which are also the
    ones [str.strip()] removes: the ASCII blanks (tab to carriage return,
    the separators 0x1c to 0x1f, the space), NEL, the no-break space, the
    Ogham space mark, the spaces U+2000 to U+200A, the line and the
    paragraph separator, the narrow no-break space, the medium
    mathematical space and the ideographic space. *)
Definition whitespace : list N :=
  [9; 10; 11; 12; 13; 28; 29; 30; 31; 32; 133; 160; 5760;
   8192; 8193; 8194; 8195; 8196; 8197; 8198; 8199; 8200; 8201; 8202;
   8232; 8233; 8239; 8287; 12288]%N.

(** [c.isspace()] for a character *)
Definition isspace (c : string) : bool :=
  existsb (fun cp => String.eqb c (chr cp)) whitespace.

(** The characters left when the leading ones that satisfy [f] are
    dropped. *)
Fixpoint skip (f : string -> bool) (cs : list string) : list string :=
  match cs with
  | [] => []
  | c :: cs' => if f c then skip f cs' else cs
  end.

(** [s.strip()]: the blanks at both ends removed. *)
Definition strip_ws (s : string) : string :=
  join (List.rev (skip isspace (List.rev (skip isspace (characters s))))).

(** [all(c.isspace() for c in s)]: a text of blanks only, the empty
    text included. *)
Definition blank (s : string) : bool := forallb isspace (characters s).

(** The ASCII table of lower-casing: [A] to [Z] go to [a] to [z], every
    other byte stays. *)
Definition ascii_lower_char (c : ascii) : ascii :=
  let n := nat_of_ascii c in
  if ((65 <=? n) && (n <=? 90))%nat then ascii_of_nat (n + 32) else c.

Fixpoint ascii_lower (s : string) : string :=
  match s with
  | EmptyString => EmptyString
  | String c s' => String (ascii_lower_char c) (ascii_lower s')
  end.

(** Whether all of [s] is ASCII. *)
Fixpoint is_ascii (s : string) : bool :=
  match s with
  | EmptyString => true
  | String c s' => (nat_of_ascii c <? 128)%nat && is_ascii s'
  end.

(** [s.lower()] follows the Unicode case tables, and the rule for a
    final sigma, of the interpreter: it is a parameter [lower] of the
    development.  What is used of it: on ASCII text it is the ASCII
    table; a leading ['.'] stays in place, the rest being lower-cased as
    it is alone (a ['.'] is no cased letter, so that it does not decide
    the form of a sigma); and no character lower-cases to text with a
    ['.'] in it. *)
Record lowercases (lower : string -> string) : Prop := Lowercases {
  lower_ascii : forall s, is_ascii s = true -> lower s = ascii_lower s;
  lower_dot : forall r, lower (String "." r) = String "." (lower r);
  lower_no_dot : forall r, mem "." r = false -> mem "." (lower r) = false
}.

(** [s.rfind(c)] for an ASCII character: the index of its last
    occurrence, counted in bytes. *)
Fixpoint rfind (c : ascii) (s : string) : option nat :=
  match s with
  | EmptyString => None
  | String a s' =>
      match rfind c s' with
      | Some i => Some (S i)
      | None => if Ascii.eqb a c then Some O else None
      end
  end.

(** The text of [s] up to, and without, the first occurrence of the
    character [c]; all of [s] when [c] does not occur. *)
Fixpoint before (c : ascii) (s : string) : string :=
  match s with
  | EmptyString => EmptyString
  | String a s' => if Ascii.eqb a c then EmptyString else String a (before c s')
  end.

(** The text of [s] after the last occurrence of the character [c]. *)
Fixpoint after_last (c : ascii) (s : string) : option string :=
  match s with
  | EmptyString => None
  | String a s' =>
      match after_last c s' with
      | Some r => Some r
      | None => if Ascii.eqb a c then Some s' else None
      end
  end.

(** Truth value of a string: [bool(s)] *)
Definition truthy (s : string) : bool := negb (is_empty s).

End PyStr.

(* ===================================================================== *)
(** * Python values, exceptions and results *)
(* ===================================================================== *)

Module Py.

(** The exceptions the script can meet.  [SystemExit] is what
    [sys.exit(code)] raises; it derives from [BaseException] only, so an
    [except Exception] clause lets it through. *)
Inductive exn : Type :=
| AttributeError
| IndexError
| KeyError
| TypeError
| ValueError
| OSError
| RequestException
| SystemExit (code : Z).

Definition is_Exception (e : exn) : bool :=
  match e with
  | SystemExit _ => false
  | _ => true
  end.

(** A computation that returns or raises. *)
Inductive result (A : Type) : Type :=
| Ok (a : A)
| Raise (e : exn).
Arguments Ok {A} a.
Arguments Raise {A} e.

(** Scalar values: what a spreadsheet cell holds and what the metadata
    dictionary stores.  [VNaN] is the missing cell of a column of
    numbers or of mixed values, [VNaT] the missing cell of a column of
    dates ([pd.NaT], an instance of [datetime] whose [isoformat()] is
    ['NaT']), [VDatetime iso] any other [datetime] or [Timestamp], whose
    [isoformat()] is [iso], and [VFloat m e] the float [m * 2^e]. *)
Inductive value : Type :=
| VNone
| VNaN
| VStr (s : string)
| VInt (z : Z)
| VFloat (m e : Z)
| VBool (b : bool)
| VDatetime (iso : string)
| VNaT.

(** [pd.isna(v)] on a scalar *)
Definition isna (v : value) : bool :=
  match v with
  | VNone | VNaN | VNaT => true
  | _ => false
  end.


(** A decoded JSON document, as [response.json()] returns it.  An
    object keeps its members in order of appearance. *)
Inductive json : Type :=
| JNull
| JBool (b : bool)
| JNum (z : Z)
| JStr (s : string)
| JArr (items : list json)
| JObj (members : list (string * json)).

(** [bool(j)]: [None], [False], zero and the empty string, list and
    dictionary are false. *)
Definition json_truthy (j : json) : bool :=
  match j with
  | JNull => false
  | JBool b => b
  | JNum z => negb (z =? 0)
  | JStr s => PyStr.truthy s
  | JArr items => match items with [] => false | _ :: _ => true end
  | JObj members => match members with [] => false | _ :: _ => true end
  end.

(** The value a decoded object holds for a key: of a repeated key, the
    last member counts. *)
Fixpoint member_get (k : string) (members : list (string * json)) : option json :=
  match members with
  | [] => None
  | (k', v) :: rest =>
      match member_get k rest with
      | Some v' => Some v'
      | None => if String.eqb k k' then Some v else None
      end
  end.

(** [j.get(k)]: only a dictionary has the method; it answers [None]
    for a missing key. *)
Definition json_get (j : json) (k : string) : result json :=
  match j with
  | JObj members => Ok (default JNull (member_get k members))
  | _ => Raise AttributeError
  end.

(** [seq[i]] for [i >= 0], and [seq[-1]] *)
Definition index {A} (l : list A) (i : nat) : result A :=
  match nth_error l i with
  | Some a => Ok a
  | None => Raise IndexError
  end.

Definition index_last {A} (l : list A) : result A :=
  match List.rev l with
  | a :: _ => Ok a
  | [] => Raise IndexError
  end.

Definition bind_result {A B} (r : result A) (k : A -> result B) : result B :=
  match r with
  | Ok a => k a
  | Raise e => Raise e
  end.

End Py.

(* ===================================================================== *)
(** * [pathlib]: the final component of a path and its suffix *)
(* ===================================================================== *)

Module PathLib.

(** [Path(p).name]: a path is cut at its slashes, empty components and
    ["."] components are dropped, and the name is the last one left
    (empty when none is). *)
Definition parts (p : string) : list string :=
  List.filter (fun x => negb (PyStr.is_empty x) && negb (String.eqb x "."))
              (PyStr.split "/" p).

Definition name (p : string) : string :=
  match List.rev (parts p) with
  | x :: _ => x
  | [] => EmptyString
  end.

(** [Path(p).suffix], as Python 3.7 to 3.13 define it:
<<
    name = self.name
    i = name.rfind('.')
    if 0 < i < len(name) - 1: return name[i:]
    else: return ''
>> *)
Definition suffix (p : string) : string :=
  let nm := name p in
  match PyStr.rfind "." nm with
  | Some i =>
      if ((0 <? i) && (S i <? String.length nm))%nat then PyStr.drop i nm
      else EmptyString
  | None => EmptyString
  end.

End PathLib.

(* ===================================================================== *)
(** * Type classifier: [get_file_type] *)
(* ===================================================================== *)

Module Classifier.

(** The mapping of a lower-cased extension to its type tag. *)
Definition canonical (ext : string) : string :=
  if String.eqb ext "pdf" then "pdf"
  else if String.eqb ext "doc" || String.eqb ext "docx" then "docx"
  else if String.eqb ext "ppt" || String.eqb ext "pptx" then "pptx"
  else if String.eqb ext "xls" || String.eqb ext "xlsx" then "xlsx"
  else ext.

(** [get_file_type(filename)]:
    [ext = Path(filename).suffix.lower().lstrip('.')], then the mapping.
    [lower] is [str.lower]. *)
Definition get_file_type (lower : string -> string) (filename : string) : string :=
  let ext := PyStr.lstrip "." (lower (PathLib.suffix filename)) in
  canonical ext.

(** The extension as the specification words it: the lower-cased text
    after the last ['.'] of the filename, empty if there is none. *)
Definition spec_extension (lower : string -> string) (filename : string) : string :=
  lower (default EmptyString (PyStr.after_last "." filename)).

Definition spec_file_type (lower : string -> string) (filename : string) : string :=
  canonical (spec_extension lower filename).

(** The extension of a path component as [pathlib] understands it: the
    text after its last ['.'], unless that ['.'] is its first character
    (a hidden file has no extension) or it has none. *)
Definition extension_of (component : string) : string :=
  match PyStr.after_last "." component with
  | Some r => if String.eqb component (String "." r) then EmptyString else r
  | None => EmptyString
  end.

End Classifier.

(* ===================================================================== *)
(** * Link resolver: the head of [download_file] *)
(* ===================================================================== *)

Module Resolver.

Definition direct_download (file_id : string) : string :=
  "https://drive.google.com/uc?export=download&id=" +:+ file_id.

(** Lines 140-145 of [download_file]: the value of [url] when the
    request is issued. *)
Definition resolve (url : string) : Py.result string :=
  if PyStr.contains "drive.google.com/file/d/" url then
    Py.bind_result (Py.index (PyStr.split "/file/d/" url) 1) (fun a =>
    Py.bind_result (Py.index (PyStr.split "/" a) 0) (fun b =>
    Py.bind_result (Py.index (PyStr.split "?" b) 0) (fun file_id =>
    Py.Ok (direct_download file_id))))
  else if PyStr.contains "drive.google.com/open?id=" url then
    Py.bind_result (Py.index (PyStr.split "open?id=" url) 1) (fun a =>
    Py.bind_result (Py.index (PyStr.split "&" a) 0) (fun file_id =>
    Py.Ok (direct_download file_id)))
  else Py.Ok url.

End Resolver.

(* ===================================================================== *)
(** * The outside world and the monad of effects *)
(* ===================================================================== *)

Module World.

Import Py.

(** The [doc_metadata] dictionary of [upload_to_supabase]. *)
Record doc_metadata : Type := DocMetadata {
  md_title : value;
  md_author : value;
  md_upload_date : string;
  md_last_modified : value;
  md_file_type : string;
  md_source_url : value
}.

(** The dictionary handed to [supabase_insert_record]. *)
Record document_record : Type := DocumentRecord {
  rec_id : string;
  rec_filename : string;
  rec_filetype : string;
  rec_filesize : Z;
  rec_storage_path : string;
  rec_title : value;
  rec_author : value;
  rec_upload_date : string;
  rec_last_modified : value;
  rec_metadata : doc_metadata
}.

(** The payload of a [requests.post]: raw bytes ([data=]) or a record
    serialised as JSON ([json=]). *)
Inductive body : Type :=
| BData (content : string)
| BJson (record : document_record).

(** What [requests.post] answers: the status, the text, and the decoded
    body ([None] when [response.json()] raises). *)
Record response : Type := Response {
  status_code : Z;
  text : string;
  decoded : option json
}.

(** What a streaming [requests.get] answers: status, headers, the
    chunks [iter_content] yields, and whether the stream breaks after
    the last of them. *)
Record get_response : Type := GetResponse {
  g_status : Z;
  g_headers : list (string * string);
  g_chunks : list string;
  g_broken : bool
}.

(** Network calls, in the order they are issued, each with the arguments
    the script hands to [requests]: the URL is the text handed over, as
    it is.  What the HTTP library makes of that text before it goes on
    the wire (escaping, ['..'] segments, a ['#'] fragment) is not
    modelled. *)
Inductive event : Type :=
| EvGet (url : string)
| EvPost (url : string) (headers : list (string * string)) (payload : body).

(** A spreadsheet as [pd.read_excel] returns it: column labels and rows,
    a row mapping labels to cells.  Labels are taken to be strings.  A
    row of a sheet has a cell for every column; a lookup of a label it
    does not have raises [KeyError]. *)
Record dataframe : Type := DataFrame {
  columns : list string;
  rows : list (gmap string value)
}.

(** Everything the script does not decide: configuration, the
    identifier source, the clock, the network, library tables (the
    tables of [mimetypes], the parsers of numbers and dates, and
    [str.lower], see [PyStr.lowercases]) and the local files outside its
    scratch directory.  Sources that are asked repeatedly are indexed by
    the number of earlier requests. *)
Record world : Type := MkWorld {
  SUPABASE_URL : string;
  SUPABASE_KEY : string;
  uuid4 : nat -> string;
  now_isoformat : nat -> string;
  requests_get : nat -> string -> option get_response;
  requests_post : nat -> string -> list (string * string) -> body -> option response;
  guess_type : string -> option string;
  guess_extension : string -> option string;
  int_of_str : string -> option Z;
  to_datetime : string -> option string;
  path_exists : string -> bool;
  read_excel : string -> value -> option dataframe;
  mkdtemp : option string;
  writable : string -> bool;
  str_lower : string -> string
}.

(** The mutable part: the calls made so far, how often each source was
    asked, and the files written.  A file is kept under the path the
    script spells for it: two spellings of one file (through ['..'], a
    link, a doubled ['/']) are two keys, so that [files] tells what
    the script reads back under the spelling it wrote, and nothing
    about which other spellings name the same file. *)
Record state : Type := MkState {
  trace : list event;
  n_uuid : nat;
  n_clock : nat;
  n_net : nat;
  files : gmap string string
}.

Definition initial : state :=
  {| trace := []; n_uuid := 0; n_clock := 0; n_net := 0; files := ∅ |}.

(** The state after one more identifier was drawn, after one more
    reading of the clock, and after one more network call. *)
Definition bump_uuid (st : state) : state :=
  {| trace := trace st; n_uuid := S (n_uuid st); n_clock := n_clock st;
     n_net := n_net st; files := files st |}.

Definition bump_clock (st : state) : state :=
  {| trace := trace st; n_uuid := n_uuid st; n_clock := S (n_clock st);
     n_net := n_net st; files := files st |}.

Definition log_call (ev : event) (st : state) : state :=
  {| trace := trace st ++ [ev]; n_uuid := n_uuid st; n_clock := n_clock st;
     n_net := S (n_net st); files := files st |}.

Definition set_files (fs : gmap string string) (st : state) : state :=
  {| trace := trace st; n_uuid := n_uuid st; n_clock := n_clock st;
     n_net := n_net st; files := fs |}.

(** The records of the catalog inserts among the calls of a trace, and
    the URLs of its downloads. *)
Fixpoint catalog_records (tr : list event) : list document_record :=
  match tr with
  | [] => []
  | EvPost _ _ (BJson r) :: tr' => r :: catalog_records tr'
  | _ :: tr' => catalog_records tr'
  end.

Fixpoint fetched_urls (tr : list event) : list string :=
  match tr with
  | [] => []
  | EvGet url :: tr' => url :: fetched_urls tr'
  | _ :: tr' => fetched_urls tr'
  end.

Definition M (A : Type) : Type := state -> result A * state.

Definition ret {A} (a : A) : M A := fun st => (Ok a, st).

Definition raise {A} (e : exn) : M A := fun st => (Raise e, st).

Definition bind {A B} (m : M A) (k : A -> M B) : M B :=
  fun st =>
    match m st with
    | (Ok a, st') => k a st'
    | (Raise e, st') => (Raise e, st')
    end.

(** [try: body  except Exception: handler] *)
Definition try_except {A} (m : M A) (handler : exn -> M A) : M A :=
  fun st =>
    match m st with
    | (Raise e, st') => if is_Exception e then handler e st' else (Raise e, st')
    | r => r
    end.

(** [try: body  finally: cleanup], the shape of a [with] block *)
Definition finally {A} (m : M A) (cleanup : state -> state) : M A :=
  fun st => let '(r, st') := m st in (r, cleanup st').

Definition lift {A} (r : result A) : M A := fun st => (r, st).

Module Notations.
Notation "'let*' x := m 'in' k" := (bind m (fun x => k))
  (at level 10, x name, m at level 100, k at level 200, only parsing).
Notation "'do*' m 'in' k" := (bind m (fun _ => k))
  (at level 10, m at level 100, k at level 200, only parsing).
End Notations.
Import Notations.

Section Primitives.

Variable w : world.

(** [str(uuid.uuid4())] *)
Definition gen_uuid : M string :=
  fun st => (Ok (uuid4 w (n_uuid st)), bump_uuid st).

(** [datetime.now().isoformat()] *)
Definition datetime_now : M string :=
  fun st => (Ok (now_isoformat w (n_clock st)), bump_clock st).

(** [requests.post(url, headers=headers, data=... / json=...)] *)
Definition post (url : string) (headers : list (string * string)) (payload : body)
  : M response :=
  fun st =>
    let st' := log_call (EvPost url headers payload) st in
    match requests_post w (n_net st) url headers payload with
    | Some r => (Ok r, st')
    | None => (Raise RequestException, st')
    end.

(** [requests.get(url, stream=True)] *)
Definition get (url : string) : M get_response :=
  fun st =>
    let st' := log_call (EvGet url) st in
    match requests_get w (n_net st) url with
    | Some r => (Ok r, st')
    | None => (Raise RequestException, st')
    end.

(** [response.json()] *)
Definition response_json (r : response) : M json :=
  match decoded r with
  | Some j => ret j
  | None => raise RequestException
  end.

(** [os.path.getsize(path)] and [open(path, 'rb').read()] *)
Definition getsize (path : string) : M Z :=
  fun st =>
    match files st !! path with
    | Some content => (Ok (Z.of_nat (String.length content)), st)
    | None => (Raise OSError, st)
    end.

Definition read_file (path : string) : M string :=
  fun st =>
    match files st !! path with
    | Some content => (Ok content, st)
    | None => (Raise OSError, st)
    end.

(** [open(path, 'wb')]: the file is created empty, or the call raises. *)
Definition open_wb (path : string) : M unit :=
  fun st =>
    if writable w path then (Ok tt, set_files (<[path := EmptyString]> (files st)) st)
    else (Raise OSError, st).

(** [f.write(chunk)] *)
Definition write_chunk (path chunk : string) : M unit :=
  fun st =>
    (Ok tt, set_files (<[path := default EmptyString (files st !! path) +:+ chunk]> (files st)) st).

End Primitives.

End World.

(* ===================================================================== *)
(** * Ingestor: the two backend helpers and [upload_to_supabase] *)
(* ===================================================================== *)

Module Ingestor.

Import Py World World.Notations.

Section Ingestor.

Variable w : world.

(** [x or default] on an optional string *)
Definition str_or (x : option string) (dflt : string) : string :=
  match x with
  | Some s => if PyStr.truthy s then s else dflt
  | None => dflt
  end.

Definition auth_headers : list (string * string) :=
  [("Authorization", "Bearer " +:+ SUPABASE_KEY w); ("apikey", SUPABASE_KEY w)].

Definition storage_url (bucket path : string) : string :=
  SUPABASE_URL w +:+ "/storage/v1/object/" +:+ bucket +:+ "/" +:+ path.

Definition catalog_url (table : string) : string :=
  SUPABASE_URL w +:+ "/rest/v1/" +:+ table.

(** [supabase_upload_file(bucket, path, file_content, content_type)]:
    [JNull] stands for the [None] it returns on a status other than 200. *)
Definition upload_headers (content_type : option string) : list (string * string) :=
  match content_type with
  | Some ct => if PyStr.truthy ct then auth_headers ++ [("Content-Type", ct)]
               else auth_headers
  | None => auth_headers
  end.

Definition supabase_upload_file
  (bucket path file_content : string) (content_type : option string) : M json :=
  let headers := upload_headers content_type in
  let* response := post w (storage_url bucket path) headers (BData file_content) in
  if negb (status_code response =? 200) then ret JNull
  else response_json response.

(** [supabase_insert_record(table, record)] *)
Definition insert_headers : list (string * string) :=
  auth_headers ++ [("Content-Type", "application/json");
                   ("Prefer", "return=representation")].

Definition supabase_insert_record (table : string) (record : document_record) : M json :=
  let headers := insert_headers in
  let* response := post w (catalog_url table) headers (BJson record) in
  if negb (status_code response =? 201) then ret JNull
  else response_json response.

(** [bool(metadata)] for the optional dictionary argument *)
Definition metadata_truthy (metadata : option (gmap string value)) : bool :=
  match metadata with
  | Some m => bool_decide (m ≠ ∅)
  | None => false
  end.

(** [metadata.get(key, dflt) if metadata else otherwise] *)
Definition meta_get (metadata : option (gmap string value))
  (key : string) (dflt otherwise : value) : value :=
  match metadata with
  | Some m => if bool_decide (m ≠ ∅) then default dflt (m !! key) else otherwise
  | None => otherwise
  end.

(** The test [not result or not result.get('Key')] of line 231. *)
Definition upload_failed (result : json) : M bool :=
  if negb (json_truthy result) then ret true
  else let* key := lift (json_get result "Key") in ret (negb (json_truthy key)).

(** Lines 236-246: the metadata dictionary. *)
Definition build_metadata (filename file_type now : string)
  (metadata : option (gmap string value)) : doc_metadata :=
  {| md_title := meta_get metadata "name" (VStr filename) (VStr filename);
     md_author := meta_get metadata "author" VNone VNone;
     md_upload_date := now;
     md_last_modified := meta_get metadata "date" VNone (VStr now);
     md_file_type := file_type;
     md_source_url := meta_get metadata "url" VNone VNone |}.

(** Lines 249-260: the record handed to the catalog. *)
Definition make_record (document_id filename file_type : string) (file_size : Z)
  (storage_path : string) (doc_metadata : doc_metadata) : document_record :=
  {| rec_id := document_id;
     rec_filename := filename;
     rec_filetype := file_type;
     rec_filesize := file_size;
     rec_storage_path := storage_path;
     rec_title := md_title doc_metadata;
     rec_author := md_author doc_metadata;
     rec_upload_date := md_upload_date doc_metadata;
     rec_last_modified := md_last_modified doc_metadata;
     rec_metadata := doc_metadata |}.

(** The content type sent with the bytes: [mimetype or
    "application/octet-stream"]. *)
Definition content_type_of (filename : string) : option string :=
  Some (str_or (guess_type w filename) "application/octet-stream").

(** [upload_to_supabase(file_path, filename, metadata)]: the document
    identifier, or [None]. *)
Definition upload_to_supabase (file_path filename : string)
  (metadata : option (gmap string value)) : M (option string) :=
  try_except
    (let* document_id := gen_uuid w in
     let file_type := Classifier.get_file_type (str_lower w) filename in
     let* file_size := getsize file_path in
     let mimetype := guess_type w filename in
     let* file_content := read_file file_path in
     let storage_path := document_id +:+ "/" +:+ filename in
     let* result := supabase_upload_file "documents" storage_path file_content
                      (Some (str_or mimetype "application/octet-stream")) in
     let* failed := upload_failed result in
     if failed then ret None
     else
       let* now := datetime_now w in
       let doc_metadata := build_metadata filename file_type now metadata in
       let* db_result := supabase_insert_record "documents"
         (make_record document_id filename file_type file_size storage_path
                      doc_metadata) in
       if negb (json_truthy db_result) then ret None
       else ret (Some document_id))
    (fun _ => ret None).

(** The storage call and the catalog call of one ingestion. *)
Definition storage_call (document_id filename content : string) : event :=
  EvPost (storage_url "documents" (document_id +:+ "/" +:+ filename))
         (upload_headers (content_type_of filename)) (BData content).

Definition catalog_call (record : document_record) : event :=
  EvPost (catalog_url "documents") insert_headers (BJson record).

(** The call of the upload helper that [upload_to_supabase] makes when
    it is entered in state [st] and has read [content]. *)
Definition upload_step (filename content : string) (st : state) : result json * state :=
  supabase_upload_file "documents" (uuid4 w (n_uuid st) +:+ "/" +:+ filename) content
    (content_type_of filename) (bump_uuid st).

(** The record of one ingestion. *)
Definition record_of (document_id filename content now : string)
  (metadata : option (gmap string value)) : document_record :=
  let file_type := Classifier.get_file_type (str_lower w) filename in
  make_record document_id filename file_type (Z.of_nat (String.length content))
    (document_id +:+ "/" +:+ filename)
    (build_metadata filename file_type now metadata).

End Ingestor.

(** A decoded body that is a non-empty object with a true ['Key']. *)
Definition has_key (j : json) : bool :=
  json_truthy j &&
  match json_get j "Key" with
  | Ok k => json_truthy k
  | Raise _ => false
  end.

(** Whether the upload helper returned a result with a key. *)
Definition returned_key (r : result json) : bool :=
  match r with
  | Ok j => has_key j
  | Raise _ => false
  end.

(** The answers after which [upload_to_supabase] goes on: of the storage
    call, status 200 and a body with a key; of the catalog call, status
    201 and a true body. *)
Definition storage_accepted (r : response) : bool :=
  (status_code r =? 200) &&
  match decoded r with
  | Some j => has_key j
  | None => false
  end.

Definition catalog_accepted (r : response) : bool :=
  (status_code r =? 201) &&
  match decoded r with
  | Some j => json_truthy j
  | None => false
  end.

(** Success of the storage upload as the specification words it: a
    status of the 200 class and a body with a key. *)
Definition spec_storage_accepted (r : response) : bool :=
  (200 <=? status_code r) && (status_code r <? 300) &&
  match decoded r with
  | Some j => has_key j
  | None => false
  end.

End Ingestor.

(* ===================================================================== *)
(** * Fetcher: [download_file] *)
(* ===================================================================== *)

Module Fetcher.

Import Py World World.Notations.

(** [headers.get(name)] on the case-insensitive header dictionary, which
    compares lower-cased names.  The names asked for are ASCII and hold
    no [k]; the one character outside ASCII that lower-cases to ASCII
    text is the Kelvin sign, which gives [k]: so a name of the answer
    lower-cases to one of them exactly when the ASCII table takes it
    there. *)
Fixpoint header_get (name : string) (headers : list (string * string)) : option string :=
  match headers with
  | [] => None
  | (k, v) :: rest =>
      if String.eqb (PyStr.ascii_lower k) (PyStr.ascii_lower name) then Some v
      else header_get name rest
  end.

(** The characters the [strip] of line 154 removes: the double and the
    single quote. *)
Definition quote_chars : string :=
  String (ascii_of_nat 34) (String (ascii_of_nat 39) EmptyString).

(** [os.path.join(a, b)] on POSIX paths *)
Definition path_join (a b : string) : string :=
  if PyStr.startswith "/" b then b
  else if PyStr.is_empty a || PyStr.startswith "/" (PyStr.drop (String.length a - 1) a)
       then a +:+ b
       else a +:+ "/" +:+ b.

Section Fetcher.

Variable w : world.

(** Lines 156-164: the filename taken from the URL. *)
Definition filename_from_url (url : string) (headers : list (string * string))
  : result string :=
  bind_result (index_last (PyStr.split "/" url)) (fun a =>
  bind_result (index (PyStr.split "?" a) 0) (fun filename =>
  if negb (PyStr.contains "." filename) then
    let content_type := default EmptyString (header_get "Content-Type" headers) in
    match guess_extension w content_type with
    | Some ext => if PyStr.truthy ext then Ok (filename +:+ ext) else Ok filename
    | None => Ok filename
    end
  else Ok filename)).

(** Lines 151-164: the filename of the download. *)
Definition choose_filename (url : string) (headers : list (string * string))
  : result string :=
  match header_get "Content-Disposition" headers with
  | Some cd =>
      if PyStr.truthy cd && PyStr.contains "filename=" cd then
        bind_result (index (PyStr.split "filename=" cd) 1) (fun x =>
        Ok (PyStr.strip quote_chars x))
      else filename_from_url url headers
  | None => filename_from_url url headers
  end.

(** The loop of lines 178-180. *)
Fixpoint write_chunks (path : string) (chunks : list string) : M unit :=
  match chunks with
  | [] => ret tt
  | chunk :: rest => do* write_chunk path chunk in write_chunks path rest
  end.

(** [download_file(url, temp_dir)]: the pair [(temp_file_path, filename)],
    or [None] for the pair [(None, None)]. *)
Definition download_file (url temp_dir : string) : M (option (string * string)) :=
  try_except
    (let* url := lift (Resolver.resolve url) in
     let* response := get w url in
     if (400 <=? g_status response) && (g_status response <? 600)
     then raise RequestException
     else
       let* filename := lift (choose_filename url (g_headers response)) in
       let temp_file_path := path_join temp_dir filename in
       let* total_size :=
         match header_get "content-length" (g_headers response) with
         | Some v => match int_of_str w v with
                     | Some n => ret n
                     | None => raise ValueError
                     end
         | None => ret 0
         end in
       do* open_wb w temp_file_path in
       do* write_chunks temp_file_path (g_chunks response) in
       if g_broken response then raise RequestException
       else ret (Some (temp_file_path, filename)))
    (fun _ => ret None).

End Fetcher.

End Fetcher.

(* ===================================================================== *)
(** * Orchestrator: [main] *)
(* ===================================================================== *)

Module Orchestrator.

Import Py World World.Notations.

(** The parsed command line. *)
Record args : Type := Args {
  excel_file : string;
  column : string;
  sheet : value;
  name_column : option string;
  type_column : option string;
  author_column : option string;
  date_column : option string
}.



(** [opt and opt in df.columns] *)
Definition bound (opt : option string) (df : dataframe) : option string :=
  match opt with
  | Some c => if PyStr.truthy c && bool_decide (c ∈ columns df) then Some c else None
  | None => None
  end.

(** [row[label]] *)
Definition row_get (row : gmap string value) (label : string) : M value :=
  match row !! label with
  | Some v => ret v
  | None => raise KeyError
  end.

(** What the exit of the [with tempfile.TemporaryDirectory()] block
    does: the directory and all it holds are removed. *)
Definition remove_tree (dir : string) (st : state) : state :=
  set_files (filter (fun kv => PyStr.startswith (dir +:+ "/") kv.1 = false) (files st)) st.

(** The process exit status of a run. *)
Definition exit_status {A} (r : result A) : Z :=
  match r with
  | Ok _ => 0
  | Raise (SystemExit code) => code
  | Raise _ => 1
  end.

Section Orchestrator.

Variable w : world.

(** Lines 310-334: the metadata dictionary of a row. *)
Definition gather_metadata (a : args) (df : dataframe) (row : gmap string value)
  (url : value) : M (gmap string value) :=
  let metadata : gmap string value := {[ "url" := url ]} in
  let* metadata :=
    match bound (name_column a) df with
    | Some c => let* v := row_get row c in ret (<[ "name" := v ]> metadata)
    | None => ret metadata
    end in
  let* metadata :=
    match bound (author_column a) df with
    | Some c => let* v := row_get row c in ret (<[ "author" := v ]> metadata)
    | None => ret metadata
    end in
  let* metadata :=
    match bound (date_column a) df with
    | Some c =>
        let* date_value := row_get row c in
        match date_value with
        | VDatetime iso => ret (<[ "date" := VStr iso ]> metadata)
        | VNaT => ret (<[ "date" := VStr "NaT" ]> metadata)
        | VStr s =>
            match to_datetime w s with
            | Some iso => ret (<[ "date" := VStr iso ]> metadata)
            | None => ret (<[ "date" := VStr s ]> metadata)
            end
        | _ => ret metadata
        end
    | None => ret metadata
    end in
  match bound (type_column a) df with
  | Some c => let* v := row_get row c in ret (<[ "type" := v ]> metadata)
  | None => ret metadata
  end.

(** One turn of the loop of lines 301-350, from the counters
    [(successful_uploads, failed_uploads)] to their new values. *)
Definition process_row (a : args) (df : dataframe) (temp_dir : string)
  (row : gmap string value) (counts : Z * Z) : M (Z * Z) :=
  let '(successful_uploads, failed_uploads) := counts in
  let* url := row_get row (column a) in
  if isna url then ret counts
  else
    match url with
    | VStr u =>
        if negb (PyStr.truthy (PyStr.strip_ws u)) then ret counts
        else
          let* metadata := gather_metadata a df row url in
          let* downloaded := Fetcher.download_file w u temp_dir in
          match downloaded with
          | None => ret (successful_uploads, failed_uploads + 1)
          | Some (temp_file_path, filename) =>
              if negb (PyStr.truthy temp_file_path)
              then ret (successful_uploads, failed_uploads + 1)
              else
                let* document_id :=
                  Ingestor.upload_to_supabase w temp_file_path filename (Some metadata) in
                match document_id with
                | Some id =>
                    if PyStr.truthy id then ret (successful_uploads + 1, failed_uploads)
                    else ret (successful_uploads, failed_uploads + 1)
                | None => ret (successful_uploads, failed_uploads + 1)
                end
          end
    | _ => raise AttributeError
    end.

Fixpoint process_rows (a : args) (df : dataframe) (temp_dir : string)
  (rs : list (gmap string value)) (counts : Z * Z) : M (Z * Z) :=
  match rs with
  | [] => ret counts
  | row :: rest =>
      let* counts := process_row a df temp_dir row counts in
      process_rows a df temp_dir rest counts
  end.

(** [main()] from line 277 on, [args] being the parsed command line:
    the counters the summary prints.  An exit is the exception
    [SystemExit]. *)
Definition main (a : args) : M (Z * Z) :=
  if negb (path_exists w (excel_file a)) then raise (SystemExit 1)
  else
    try_except
      (let* df :=
         match read_excel w (excel_file a) (sheet a) with
         | Some df => ret df
         | None => raise ValueError
         end in
       if negb (bool_decide (column a ∈ columns df)) then raise (SystemExit 1)
       else
         let* temp_dir :=
           match mkdtemp w with
           | Some d => ret d
           | None => raise OSError
           end in
         finally (process_rows a df temp_dir (rows df) (0, 0)) (remove_tree temp_dir))
      (fun _ => raise (SystemExit 1)).


(** The network calls one row can cause when [drawn] identifiers were
    drawn before it, with the number of identifiers it draws: none; a download alone (the download failed, or the file
    could not be read back); a download and a storage upload; or a
    download, a storage upload and a catalog insert whose record carries
    the identifier drawn for the row. *)
Inductive row_calls (row : gmap string value) (link_column : string) (drawn : nat)
  : list event -> nat -> Prop :=
| row_no_call :
    row_calls row link_column drawn [] 0
| row_fetch_only (u url : string) (draws : nat) :
    row !! link_column = Some (VStr u) ->
    Resolver.resolve u = Ok url ->
    (draws <= 1)%nat ->
    row_calls row link_column drawn [EvGet url] draws
| row_fetch_store (u url filename content : string) :
    row !! link_column = Some (VStr u) ->
    Resolver.resolve u = Ok url ->
    row_calls row link_column drawn
      [EvGet url; Ingestor.storage_call w (uuid4 w drawn) filename content] 1
| row_fetch_store_insert (u url filename content now : string) (m : gmap string value) :
    row !! link_column = Some (VStr u) ->
    Resolver.resolve u = Ok url ->
    m !! "url" = Some (VStr u) ->
    row_calls row link_column drawn
      [EvGet url;
       Ingestor.storage_call w (uuid4 w drawn) filename content;
       Ingestor.catalog_call w
         (Ingestor.record_of w (uuid4 w drawn) filename content now (Some m))] 1.


(** Every record the run inserts was made for a row of the sheet and
    holds that row's link cell as its source, while the request for the
    document went to the resolved link. *)
Definition sources_raw (a : args) (tr : list event) (n : nat) : Prop :=
  forall record, record ∈ catalog_records tr ->
    exists df row u url,
      read_excel w (excel_file a) (sheet a) = Some df /\
      row ∈ rows df /\
      row !! column a = Some (VStr u) /\
      md_source_url (rec_metadata record) = VStr u /\
      Resolver.resolve u = Ok url /\
      url ∈ fetched_urls tr.

End Orchestrator.

End Orchestrator.

(* ===================================================================== *)
(** * A concrete world, used to evaluate the embedding *)
(* ===================================================================== *)

Module Demo.

Import Py World Orchestrator.

(** Identifiers [u], [uu], [uuu], ...: all distinct. *)
Fixpoint tally (n : nat) : string :=
  match n with
  | O => "u"
  | S n' => String "u" (tally n')
  end.

(** A sheet of four rows: a sharing link, a blank cell, a missing cell
    and a plain link. *)
Definition links_sheet : dataframe :=
  {| columns := ["Link"; "Name"];
     rows := [ {[ "Link" := VStr "https://drive.google.com/file/d/1AbC/view?usp=sharing";
                  "Name" := VStr "Report" ]};
               {[ "Link" := VStr "   "; "Name" := VStr "blank" ]};
               {[ "Link" := VNaN; "Name" := VStr "missing" ]};
               {[ "Link" := VStr "https://example.com/docs/notes.docx?v=2";
                  "Name" := VStr "Notes" ]} ] |}.

(** A sheet whose second link cell holds a number. *)
Definition numeric_sheet : dataframe :=
  {| columns := ["Link"; "Name"];
     rows := [ {[ "Link" := VStr "https://example.com/a.pdf"; "Name" := VStr "A" ]};
               {[ "Link" := VInt 42; "Name" := VStr "B" ]};
               {[ "Link" := VStr "https://example.com/c.pdf"; "Name" := VStr "C" ]} ] |}.

(** A backend that stores whatever it is sent. *)
Definition accepting (n : nat) (url : string) (headers : list (string * string))
  (payload : body) : option response :=
  match payload with
  | BData _ =>
      Some {| status_code := 200; text := "";
              decoded := Some (JObj [("Key", JStr "documents/k")]) |}
  | BJson _ =>
      Some {| status_code := 201; text := "";
              decoded := Some (JArr [JObj [("id", JStr "k")]]) |}
  end.

(** A world around a backend and a sheet: the web server answers every
    request with a two-chunk PDF body.  The names of the examples are
    ASCII, where [str.lower] is the ASCII table. *)
Definition make_world
  (post : nat -> string -> list (string * string) -> body -> option response)
  (sheet : dataframe) : world :=
  {| SUPABASE_URL := "https://proj.example.co";
     SUPABASE_KEY := "secret";
     uuid4 := tally;
     now_isoformat := fun _ => "2025-01-01T00:00:00";
     requests_get := fun _ _ =>
       Some {| g_status := 200;
               g_headers := [("Content-Type", "application/pdf")];
               g_chunks := ["%PDF"; "-1.4"];
               g_broken := false |};
     requests_post := post;
     guess_type := fun _ => Some "application/pdf";
     guess_extension := fun _ => Some ".pdf";
     int_of_str := fun _ => Some 8;
     to_datetime := fun _ => None;
     path_exists := fun _ => true;
     read_excel := fun _ _ => Some sheet;
     mkdtemp := Some "/tmp/tmpabc";
     writable := fun _ => true;
     str_lower := PyStr.ascii_lower |}.

Definition friendly : world := make_world accepting links_sheet.

Definition friendly_numeric : world := make_world accepting numeric_sheet.

Definition demo_args : args :=
  {| excel_file := "links.xlsx"; column := "Link"; sheet := VInt 0;
     name_column := Some "Name"; type_column := None;
     author_column := None; date_column := None |}.

(** The same command line, asking for a column the sheet does not have. *)
Definition wrong_column_args : args :=
  {| excel_file := "links.xlsx"; column := "URL"; sheet := VInt 0;
     name_column := Some "Name"; type_column := None;
     author_column := None; date_column := None |}.

Definition with_backend
  (post : nat -> string -> list (string * string) -> body -> option response) : world :=
  make_world post links_sheet.

(** A storage service that answers 500. *)
Definition storage_down : world :=
  with_backend (fun _ _ _ _ =>
    Some {| status_code := 500; text := "unavailable"; decoded := None |}).

(** A storage service that answers 200 with an object that has no key. *)
Definition storage_keyless : world :=
  with_backend (fun _ _ _ _ =>
    Some {| status_code := 200; text := ""; decoded := Some (JObj [("Id", JStr "k")]) |}).

(** A storage service that answers 201, with a key. *)
Definition storage_created : world :=
  with_backend (fun _ _ _ _ =>
    Some {| status_code := 201; text := "";
            decoded := Some (JObj [("Key", JStr "documents/k")]) |}).

(** A state in which one download sits in the scratch directory. *)
Definition downloaded : state :=
  set_files {[ "/tmp/tmpabc/a.pdf" := "%PDF-1.4" ]} initial.

(** The rows of the two sheets that the examples single out. *)
Definition blank_row : gmap string value :=
  {[ "Link" := VStr "   "; "Name" := VStr "blank" ]}.

Definition first_numeric_row : gmap string value :=
  {[ "Link" := VStr "https://example.com/a.pdf"; "Name" := VStr "A" ]}.

Definition number_row : gmap string value :=
  {[ "Link" := VInt 42; "Name" := VStr "B" ]}.

Definition last_numeric_row : gmap string value :=
  {[ "Link" := VStr "https://example.com/c.pdf"; "Name" := VStr "C" ]}.

(** The metadata [main] gathers for the first row of [links_sheet]. *)
Definition report_metadata : gmap string value :=
  {[ "url" := VStr "https://drive.google.com/file/d/1AbC/view?usp=sharing";
     "name" := VStr "Report" ]}.

Definition url_only : gmap string value :=
  {[ "url" := VStr "https://example.com/a.pdf" ]}.

End Demo.

(* ===================================================================== *)
(** * Reading a run: what was fetched, what was uploaded *)
(* ===================================================================== *)

Module Ledger.

Import Py World Orchestrator.

(** The bytes of a download: its chunks, one after the other. *)
Fixpoint join_chunks (chunks : list string) : string :=
  match chunks with
  | [] => EmptyString
  | chunk :: rest => chunk +:+ join_chunks rest
  end.

(** The payloads of the storage uploads among the calls of a trace. *)
Fixpoint uploaded_payloads (tr : list event) : list string :=
  match tr with
  | [] => []
  | EvPost _ _ (BData content) :: tr' => content :: uploaded_payloads tr'
  | _ :: tr' => uploaded_payloads tr'
  end.

(** The last segment of a URL: the text after its last ['/'], all of it
    when it has none. *)
Definition last_segment (url : string) : string :=
  default url (PyStr.after_last "/" url).

(** The link of a row that [main] does not skip: the text of its link
    cell, when that is a string with more than blanks in it. *)
Definition link_text (a : args) (row : gmap string value) : option string :=
  match row !! column a with
  | Some (VStr u) => if PyStr.truthy (PyStr.strip_ws u) then Some u else None
  | _ => None
  end.

(** The link a download is sent to. *)
Definition resolved (u : string) : string :=
  match Resolver.resolve u with
  | Ok url => url
  | Raise _ => u
  end.

(** The downloads a sheet asks for: one per row that is not skipped, in
    the order of the rows. *)
Definition row_fetch (a : args) (row : gmap string value) : list string :=
  match link_text a row with
  | Some u => [resolved u]
  | None => []
  end.

Fixpoint expected_fetches (a : args) (rs : list (gmap string value)) : list string :=
  match rs with
  | [] => []
  | row :: rest => row_fetch a row ++ expected_fetches a rest
  end.

(** Whether the [content-length] header, if there is one, reads as an
    integer. *)
Definition content_length_ok (w : world) (headers : list (string * string)) : bool :=
  match Fetcher.header_get "content-length" headers with
  | Some v => match int_of_str w v with Some _ => true | None => false end
  | None => true
  end.

(** The extension line 162-164 of [download_file] adds to a name that
    has none. *)
Definition guessed_extension (w : world) (headers : list (string * string)) : string :=
  match guess_extension w (default EmptyString (Fetcher.header_get "Content-Type" headers)) with
  | Some ext => if PyStr.truthy ext then ext else EmptyString
  | None => EmptyString
  end.

(** The filename lines 156-164 derive from a URL: its last segment up
    to the first ['?'], with the guessed extension when that has no
    ['.']. *)
Definition url_filename (w : world) (url : string) (headers : list (string * string))
  : string :=
  let base := PyStr.before "?" (last_segment url) in
  if PyStr.contains "." base then base else base +:+ guessed_extension w headers.

(** The cell of a row under an optional column of the command line:
    none when the option is not given, is empty, or names no column of
    the sheet. *)
Definition cell_of (df : dataframe) (row : gmap string value) (opt : option string)
  : option value :=
  match bound opt df with
  | Some c => row !! c
  | None => None
  end.

(** A call that, if it is a [POST], is handed both credentials and a
    URL of the configured backend: with bytes, the text
    [SUPABASE_URL/storage/v1/object/documents/{id}/{filename}] for one
    of the identifiers of the source and some filename, pasted in as
    they are; with a record, the text [SUPABASE_URL/rest/v1/documents]. *)
Definition to_backend (w : world) (ev : event) : Prop :=
  match ev with
  | EvGet _ => True
  | EvPost url headers payload =>
      Fetcher.header_get "Authorization" headers = Some ("Bearer " +:+ SUPABASE_KEY w) /\
      Fetcher.header_get "apikey" headers = Some (SUPABASE_KEY w) /\
      match payload with
      | BData _ =>
          exists i filename,
            url = SUPABASE_URL w +:+ "/storage/v1/object/documents/" +:+
                  uuid4 w i +:+ "/" +:+ filename
      | BJson record =>
          url = SUPABASE_URL w +:+ "/rest/v1/documents" /\
          exists i, rec_id record = uuid4 w i
      end
  end.

(** Whether the [Content-Disposition] header names the file. *)
Definition names_file (headers : list (string * string)) : bool :=
  match Fetcher.header_get "Content-Disposition" headers with
  | Some cd => PyStr.truthy cd && PyStr.contains "filename=" cd
  | None => false
  end.

End Ledger.

(* ===================================================================== *)
(** * More concrete worlds *)
(* ===================================================================== *)

Module Scenarios.

Import Py World Orchestrator.

(** The friendly world with another web server. *)
Definition with_web (get : nat -> string -> option get_response) : world :=
  {| SUPABASE_URL := SUPABASE_URL Demo.friendly;
     SUPABASE_KEY := SUPABASE_KEY Demo.friendly;
     uuid4 := uuid4 Demo.friendly;
     now_isoformat := now_isoformat Demo.friendly;
     requests_get := get;
     requests_post := requests_post Demo.friendly;
     guess_type := guess_type Demo.friendly;
     guess_extension := guess_extension Demo.friendly;
     int_of_str := int_of_str Demo.friendly;
     to_datetime := to_datetime Demo.friendly;
     path_exists := path_exists Demo.friendly;
     read_excel := read_excel Demo.friendly;
     mkdtemp := mkdtemp Demo.friendly;
     writable := writable Demo.friendly;
     str_lower := str_lower Demo.friendly |}.

(** A web server that answers 404. *)
Definition not_found : get_response :=
  {| g_status := 404; g_headers := []; g_chunks := ["gone"]; g_broken := false |}.

Definition web_not_found : world := with_web (fun _ _ => Some not_found).

(** A web server whose stream breaks after two chunks. *)
Definition cut_short : get_response :=
  {| g_status := 200; g_headers := [("Content-Type", "application/pdf")];
     g_chunks := ["%PDF"; "-1."]; g_broken := true |}.

Definition web_cut_short : world := with_web (fun _ _ => Some cut_short).

(** A backend that stores the bytes and refuses the record. *)
Definition refusing (n : nat) (url : string) (headers : list (string * string))
  (payload : body) : option response :=
  match payload with
  | BData _ =>
      Some {| status_code := 200; text := "";
              decoded := Some (JObj [("Key", JStr "documents/k")]) |}
  | BJson _ =>
      Some {| status_code := 409; text := "conflict"; decoded := None |}
  end.

Definition catalog_refusing : world := Demo.make_world refusing Demo.links_sheet.

(** A sheet with a date column and a type column, and the command line
    that binds them. *)
Definition dated_row : gmap string value :=
  {[ "Link" := VStr "https://example.com/a.pdf";
     "When" := VDatetime "2024-05-06T00:00:00";
     "Kind" := VStr "spreadsheet" ]}.

Definition dated_sheet : dataframe :=
  {| columns := ["Link"; "When"; "Kind"]; rows := [dated_row] |}.

Definition dated_args : args :=
  {| excel_file := "links.xlsx"; column := "Link"; sheet := VInt 0;
     name_column := Some "Title"; type_column := Some "Kind";
     author_column := None; date_column := Some "When" |}.

(** The metadata [main] gathers for [dated_row] under [dated_args]. *)
Definition dated_metadata : gmap string value :=
  <["type" := VStr "spreadsheet"]>
    (<["date" := VStr "2024-05-06T00:00:00"]>
       {[ "url" := VStr "https://example.com/a.pdf" ]}).


(** A row whose link cell holds a space, a no-break space (U+00A0) and
    an ideographic space (U+3000). *)
Definition no_break_row : gmap string value :=
  {[ "Link" := VStr (" " +:+ PyStr.chr 160 +:+ PyStr.chr 12288);
     "Name" := VStr "blank" ]}.

(** A row of a sheet of dates whose date cell is empty. *)
Definition undated_row : gmap string value :=
  {[ "Link" := VStr "https://example.com/a.pdf";
     "When" := VNaT;
     "Kind" := VStr "spreadsheet" ]}.

(** The metadata [main] gathers for [undated_row] under [dated_args]. *)
Definition undated_metadata : gmap string value :=
  <["type" := VStr "spreadsheet"]>
    (<["date" := VStr "NaT"]>
       {[ "url" := VStr "https://example.com/a.pdf" ]}).


End Scenarios.

(* ===================================================================== *)
(** * Facts about the string operations *)
(* ===================================================================== *)

Section StringFacts.

Import PyStr.

#[local] Arguments String.append !_ _ / : simpl nomatch.

Example split_path :
  split "/" "https://host/a/b.pdf?x=1" = ["https:"; ""; "host"; "a"; "b.pdf?x=1"].
Proof. reflexivity. Qed.

Example split_trailing : split "/" "a/" = ["a"; ""].
Proof. reflexivity. Qed.

Example split_adjacent : split "ab" "xabab" = ["x"; ""; ""].
Proof. reflexivity. Qed.

Example split_leftmost : split "aa" "aaa" = [""; "a"].
Proof. reflexivity. Qed.

Example strip_ws_both_ends : strip_ws "  a b  " = "a b".
Proof. reflexivity. Qed.

Example ascii_lower_mixed : ascii_lower ".PdF9" = ".pdf9".
Proof. reflexivity. Qed.

(** A two-byte and a three-byte character between ASCII ones. *)
Example characters_mixed :
  characters ("a" +:+ chr 233 +:+ chr 8364 +:+ "b") = ["a"; chr 233; chr 8364; "b"].
Proof. reflexivity. Qed.

(** The no-break space and the ideographic space are blanks; the
    zero-width space (U+200B) is not. *)
Example isspace_beyond_ascii :
  isspace (chr 160) = true /\ isspace (chr 12288) = true /\ isspace (chr 8203) = false.
Proof. repeat split; reflexivity. Qed.

Example strip_ws_no_break_space :
  strip_ws (chr 160 +:+ " a" +:+ chr 160 +:+ "b" +:+ chr 12288) = "a" +:+ chr 160 +:+ "b".
Proof. reflexivity. Qed.

Example blank_no_break_space :
  blank (" " +:+ chr 160 +:+ chr 12288) = true /\
  strip_ws (" " +:+ chr 160 +:+ chr 12288) = "".
Proof. split; reflexivity. Qed.

Lemma append_assoc (a b c : string) : (a +:+ b) +:+ c = a +:+ (b +:+ c).
Proof. induction a as [|x a IH]; simpl; congruence. Qed.

Lemma append_length (a b : string) :
  String.length (a +:+ b) = (String.length a + String.length b)%nat.
Proof. induction a as [|x a IH]; simpl; congruence. Qed.

Lemma startswith_append (p r : string) : startswith p (p +:+ r) = true.
Proof.
  induction p as [|x p IH]; simpl; [reflexivity|].
  now rewrite Ascii.eqb_refl, IH.
Qed.

Lemma startswith_inv (p s : string) :
  startswith p s = true -> s = p +:+ drop (String.length p) s.
Proof.
  revert s; induction p as [|x p IH]; intros s H; simpl in *.
  - reflexivity.
  - destruct s as [|y s]; [discriminate|].
    apply andb_true_iff in H as [Hxy Hp].
    apply Ascii.eqb_eq in Hxy; subst y.
    simpl. f_equal. now apply IH.
Qed.

Lemma drop_append (p r : string) : drop (String.length p) (p +:+ r) = r.
Proof. induction p as [|x p IH]; simpl; [now destruct r | exact IH]. Qed.

(** [partition] cuts at an occurrence of the separator ... *)
Lemma partition_sound (sep s pre rest : string) :
  partition sep s = Some (pre, rest) -> s = pre +:+ sep +:+ rest.
Proof.
  revert pre rest; induction s as [|c s IH]; intros pre rest H.
  - simpl in H. destruct (startswith sep EmptyString) eqn:E; [|discriminate].
    injection H as <- <-. simpl. now apply startswith_inv.
  - cbn [partition] in H. destruct (startswith sep (String c s)) eqn:E.
    + injection H as <- <-. simpl. now apply startswith_inv.
    + destruct (partition sep s) as [[p r]|] eqn:Ep; [|discriminate].
      injection H as <- <-. simpl. f_equal. now apply IH.
Qed.

(** ... which is the leftmost one, ... *)
Lemma partition_first (sep s pre rest pre' rest' : string) :
  partition sep s = Some (pre, rest) ->
  s = pre' +:+ sep +:+ rest' ->
  (String.length pre <= String.length pre')%nat.
Proof.
  revert pre rest pre'; induction s as [|c s IH]; intros pre rest pre' H Hs.
  - simpl in H. destruct (startswith sep EmptyString); [|discriminate].
    injection H as <- <-. simpl. lia.
  - cbn [partition] in H. destruct (startswith sep (String c s)) eqn:E.
    + injection H as <- <-. simpl. lia.
    + destruct (partition sep s) as [[p r]|] eqn:Ep; [|discriminate].
      injection H as <- <-.
      destruct pre' as [|c' pre'].
      * simpl in Hs. rewrite Hs, startswith_append in E. discriminate.
      * simpl in Hs. injection Hs as -> Hs.
        simpl. apply le_n_S. eapply IH; [reflexivity | exact Hs].
Qed.

Lemma partition_startswith (sep s : string) :
  startswith sep s = true ->
  partition sep s = Some (EmptyString, drop (String.length sep) s).
Proof. intros H. destruct s; cbn [partition]; now rewrite H. Qed.

(** ... and finds one whenever there is one. *)
Lemma partition_complete (sep pre rest : string) :
  exists p r, partition sep (pre +:+ sep +:+ rest) = Some (p, r).
Proof.
  induction pre as [|c pre [p [r IH]]].
  - simpl. rewrite partition_startswith by apply startswith_append.
    eexists _, _. reflexivity.
  - simpl. cbn [partition].
    destruct (startswith sep (String c (pre +:+ sep +:+ rest))).
    + eexists _, _. reflexivity.
    + rewrite IH. eexists _, _. reflexivity.
Qed.

Lemma partition_length (sep s pre rest : string) :
  partition sep s = Some (pre, rest) ->
  String.length s = (String.length pre + String.length sep + String.length rest)%nat.
Proof.
  intros H. apply partition_sound in H. rewrite H at 1.
  rewrite !append_length. lia.
Qed.

(** A text that contains [a ++ b] contains [b]. *)
Lemma contains_suffix (a b s : string) :
  contains (a +:+ b) s = true -> exists p r, partition b s = Some (p, r).
Proof.
  unfold contains. destruct (partition (a +:+ b) s) as [[p r]|] eqn:E; [|discriminate].
  intros _. apply partition_sound in E. rewrite E.
  rewrite append_assoc, <- (append_assoc p a).
  apply partition_complete.
Qed.

(** [split] unfolds along [partition]: the fuel never runs out. *)
Lemma split_fuel_enough (sep : string) (n m : nat) (s : string) :
  sep <> EmptyString ->
  (String.length s < n)%nat -> (String.length s < m)%nat ->
  split_fuel n sep s = split_fuel m sep s.
Proof.
  intros Hsep. revert m s; induction n as [|n IH]; intros m s Hn Hm; [lia|].
  destruct m as [|m]; [lia|]. simpl.
  destruct (partition sep s) as [[p r]|] eqn:E; [|reflexivity].
  f_equal. apply partition_length in E.
  assert (0 < String.length sep)%nat by (destruct sep; [congruence | simpl; lia]).
  apply IH; lia.
Qed.

Lemma split_unfold (sep s : string) :
  sep <> EmptyString ->
  split sep s =
  match partition sep s with
  | None => [s]
  | Some (p, r) => p :: split sep r
  end.
Proof.
  intros Hsep. unfold split at 1. cbn [split_fuel].
  destruct (partition sep s) as [[p r]|] eqn:E; [|reflexivity].
  f_equal. unfold split. apply partition_length in E.
  assert (0 < String.length sep)%nat by (destruct sep; [congruence | simpl; lia]).
  apply split_fuel_enough; [assumption | lia | lia].
Qed.

Lemma split_index_0 (sep s : string) :
  sep <> EmptyString -> Py.index (split sep s) 0 = Py.Ok (first_piece sep s).
Proof.
  intros Hsep. rewrite split_unfold by assumption. unfold first_piece.
  now destruct (partition sep s) as [[p r]|].
Qed.

Lemma split_index_1 (sep s pre rest : string) :
  sep <> EmptyString -> partition sep s = Some (pre, rest) ->
  Py.index (split sep s) 1 = Py.Ok (first_piece sep rest).
Proof.
  intros Hsep H. rewrite split_unfold, H by assumption.
  change (Py.index (pre :: split sep rest) 1) with (Py.index (split sep rest) 0).
  now apply split_index_0.
Qed.

Lemma partition_char (c a : ascii) (s : string) :
  partition (String c EmptyString) (String a s) =
  if Ascii.eqb c a then Some (EmptyString, s)
  else match partition (String c EmptyString) s with
       | Some (p, r) => Some (String a p, r)
       | None => None
       end.
Proof. cbn [partition startswith]. destruct (Ascii.eqb c a); reflexivity. Qed.

(** Cut at a single character, the first piece is the text before it. *)
Lemma first_piece_char (c : ascii) (s : string) :
  first_piece (String c EmptyString) s = before c s.
Proof.
  unfold first_piece. induction s as [|a s IH].
  - reflexivity.
  - rewrite partition_char. cbn [before]. rewrite (Ascii.eqb_sym a c).
    destruct (Ascii.eqb c a); [reflexivity|].
    destruct (partition (String c EmptyString) s) as [[p r]|]; f_equal; exact IH.
Qed.

Lemma before_append_sep (c : ascii) (p x : string) :
  before c (p +:+ String c x) = before c p.
Proof.
  induction p as [|a p IH]; simpl.
  - now rewrite Ascii.eqb_refl.
  - destruct (Ascii.eqb a c); [reflexivity | now rewrite IH].
Qed.

(** Cutting first at a separator that begins with [c] does not change
    the text before the first [c]. *)
Lemma before_first_piece (c : ascii) (sep' s : string) :
  before c (first_piece (String c sep') s) = before c s.
Proof.
  unfold first_piece.
  destruct (partition (String c sep') s) as [[p r]|] eqn:E; [|reflexivity].
  apply partition_sound in E. rewrite E. simpl.
  now rewrite before_append_sep.
Qed.

End StringFacts.

(* ===================================================================== *)
(** * The link resolver *)
(* ===================================================================== *)

Section ResolverFacts.

Import PyStr Resolver.

#[local] Arguments String.append !_ _ / : simpl nomatch.

(** [sub in s] holds exactly when [s] is some text, then [sub], then
    some text. *)
Lemma contains_iff (sub s : string) :
  contains sub s = true <-> exists pre rest, s = pre +:+ sub +:+ rest.
Proof.
  unfold contains. split.
  - destruct (partition sub s) as [[p r]|] eqn:E; [|discriminate].
    intros _. exists p, r. now apply partition_sound.
  - intros [pre [rest ->]].
    now destruct (partition_complete sub pre rest) as [p [r ->]].
Qed.

Lemma resolve_file_d (url pre rest : string) :
  contains "drive.google.com/file/d/" url = true ->
  partition "/file/d/" url = Some (pre, rest) ->
  resolve url = Py.Ok (direct_download (before "?" (before "/" rest))).
Proof.
  intros Hc Hp. unfold resolve. rewrite Hc.
  rewrite (split_index_1 "/file/d/" url pre rest) by (assumption || discriminate).
  cbn [Py.bind_result].
  rewrite split_index_0 by discriminate. cbn [Py.bind_result].
  rewrite split_index_0 by discriminate. cbn [Py.bind_result].
  now rewrite !first_piece_char, before_first_piece.
Qed.

Lemma resolve_open_id (url pre rest : string) :
  contains "drive.google.com/file/d/" url = false ->
  contains "drive.google.com/open?id=" url = true ->
  partition "open?id=" url = Some (pre, rest) ->
  resolve url = Py.Ok (direct_download (before "&" (first_piece "open?id=" rest))).
Proof.
  intros Hn Hc Hp. unfold resolve. rewrite Hn, Hc.
  rewrite (split_index_1 "open?id=" url pre rest) by (assumption || discriminate).
  cbn [Py.bind_result].
  rewrite split_index_0 by discriminate. cbn [Py.bind_result].
  now rewrite first_piece_char.
Qed.

(** C4, as amended.  The resolver never raises, and for every URL:
    - if it contains [drive.google.com/file/d/], the output is the
      direct-download endpoint built from the text that follows the
      URL's first [/file/d/], up to the next ['/'] and cut at its first
      ['?'];
    - if it does not, but contains [drive.google.com/open?id=], the
      output is that endpoint built from the text that follows the URL's
      first [open?id=], up to the next [open?id=] if there is one, and
      cut at its first ['&'];
    - otherwise the output is the URL itself. *)
Theorem resolve_cases (url : string) :
  (contains "drive.google.com/file/d/" url = true ->
   exists pre rest,
     url = pre +:+ "/file/d/" +:+ rest /\
     (forall pre' rest', url = pre' +:+ "/file/d/" +:+ rest' ->
                         (String.length pre <= String.length pre')%nat) /\
     resolve url = Py.Ok (direct_download (before "?" (before "/" rest))))
  /\
  (contains "drive.google.com/file/d/" url = false ->
   contains "drive.google.com/open?id=" url = true ->
   exists pre rest,
     url = pre +:+ "open?id=" +:+ rest /\
     (forall pre' rest', url = pre' +:+ "open?id=" +:+ rest' ->
                         (String.length pre <= String.length pre')%nat) /\
     resolve url = Py.Ok (direct_download (before "&" (first_piece "open?id=" rest))))
  /\
  (contains "drive.google.com/file/d/" url = false ->
   contains "drive.google.com/open?id=" url = false ->
   resolve url = Py.Ok url).
Proof.
  split; [|split].
  - intros Hc.
    destruct (contains_suffix "drive.google.com" "/file/d/" url Hc) as [pre [rest Hp]].
    exists pre, rest. split; [now apply partition_sound|]. split.
    + intros pre' rest'. now apply partition_first with (rest := rest).
    + now apply resolve_file_d with (pre := pre).
  - intros Hn Hc.
    destruct (contains_suffix "drive.google.com/" "open?id=" url Hc) as [pre [rest Hp]].
    exists pre, rest. split; [now apply partition_sound|]. split.
    + intros pre' rest'. now apply partition_first with (rest := rest).
    + now apply resolve_open_id with (pre := pre).
  - intros Hn1 Hn2. unfold resolve. now rewrite Hn1, Hn2.
Qed.

(** The three cases on links as they occur: a sharing link, an
    [open?id=] link and a plain link. *)
Lemma resolve_cases_witness :
  (exists pre rest,
     "https://drive.google.com/file/d/1AbC/view?usp=sharing" = pre +:+ "/file/d/" +:+ rest /\
     (forall pre' rest',
        "https://drive.google.com/file/d/1AbC/view?usp=sharing" = pre' +:+ "/file/d/" +:+ rest' ->
        (String.length pre <= String.length pre')%nat) /\
     resolve "https://drive.google.com/file/d/1AbC/view?usp=sharing" =
       Py.Ok (direct_download (before "?" (before "/" rest))))
  /\
  (exists pre rest,
     "https://drive.google.com/open?id=1AbC&x=2" = pre +:+ "open?id=" +:+ rest /\
     (forall pre' rest',
        "https://drive.google.com/open?id=1AbC&x=2" = pre' +:+ "open?id=" +:+ rest' ->
        (String.length pre <= String.length pre')%nat) /\
     resolve "https://drive.google.com/open?id=1AbC&x=2" =
       Py.Ok (direct_download (before "&" (first_piece "open?id=" rest))))
  /\
  resolve "https://example.com/docs/notes.docx" = Py.Ok "https://example.com/docs/notes.docx".
Proof.
  split; [|split].
  - apply (proj1 (resolve_cases "https://drive.google.com/file/d/1AbC/view?usp=sharing")).
    reflexivity.
  - apply (proj1 (proj2 (resolve_cases "https://drive.google.com/open?id=1AbC&x=2")));
      reflexivity.
  - apply (proj2 (proj2 (resolve_cases "https://example.com/docs/notes.docx")));
      reflexivity.
Defined.

(** C4 as it is worded fails: a URL of another host that contains
    [open?id=] (and no [file/d/]) is returned unchanged, not rewritten;
    and the identifier is read after the first [/file/d/] (resp.
    [open?id=]) of the URL, which need not be the provider's. *)
Lemma resolve_counterexample :
  (contains "open?id=" "https://example.com/open?id=abc&x=1" = true /\
   contains "file/d/" "https://example.com/open?id=abc&x=1" = false /\
   resolve "https://example.com/open?id=abc&x=1" = Py.Ok "https://example.com/open?id=abc&x=1" /\
   resolve "https://example.com/open?id=abc&x=1" <> Py.Ok (direct_download "abc"))
  /\
  resolve "https://a.io/file/d/X/drive.google.com/file/d/Y/view" = Py.Ok (direct_download "X")
  /\
  resolve "https://drive.google.com/open?id=abcopen?id=x&y" = Py.Ok (direct_download "abc").
Proof.
  repeat split; try reflexivity.
  vm_compute. discriminate.
Qed.

Example resolve_view_link :
  resolve "https://drive.google.com/file/d/1AbC/view?usp=sharing" =
  Py.Ok "https://drive.google.com/uc?export=download&id=1AbC".
Proof. reflexivity. Qed.

Example resolve_query_after_id :
  resolve "https://drive.google.com/file/d/1AbC?usp=sharing" =
  Py.Ok "https://drive.google.com/uc?export=download&id=1AbC".
Proof. reflexivity. Qed.

Example resolve_open_link :
  resolve "https://drive.google.com/open?id=1AbC&authuser=0" =
  Py.Ok "https://drive.google.com/uc?export=download&id=1AbC".
Proof. reflexivity. Qed.

End ResolverFacts.

(* ===================================================================== *)
(** * The type classifier *)
(* ===================================================================== *)

Section ClassifierFacts.

Import PyStr PathLib Classifier.

#[local] Arguments String.append !_ _ / : simpl nomatch.

(** [rfind] and [after_last] see the same last occurrence. *)
Lemma rfind_after_last (c : ascii) (s : string) :
  match rfind c s with
  | Some i =>
      exists r, after_last c s = Some r /\ drop i s = String c r /\
                String.length s = (i + 1 + String.length r)%nat /\
                mem c r = false
  | None => after_last c s = None /\ mem c s = false
  end.
Proof.
  induction s as [|a s IH]; simpl.
  - split; reflexivity.
  - destruct (rfind c s) as [i|].
    + destruct IH as [r [H1 [H2 [H3 H4]]]]. exists r. rewrite H1.
      repeat split; try assumption; try lia.
    + destruct IH as [H1 H2]. rewrite H1.
      destruct (Ascii.eqb a c) eqn:E.
      * apply Ascii.eqb_eq in E; subst a. exists s. repeat split; try lia; assumption.
      * split; [reflexivity|]. rewrite Ascii.eqb_sym, E. exact H2.
Qed.

Lemma ascii_lower_char_dot (c : ascii) :
  Ascii.eqb (ascii_lower_char c) "." = Ascii.eqb c ".".
Proof.
  destruct c as [[] [] [] [] [] [] [] []]; reflexivity.
Qed.

Lemma ascii_lower_no_dot (r : string) :
  mem "." r = false -> mem "." (ascii_lower r) = false.
Proof.
  induction r as [|a r IH]; [reflexivity|].
  cbn [mem ascii_lower]. intros H.
  apply orb_false_iff in H as [H1 H2].
  rewrite (Ascii.eqb_sym "." (ascii_lower_char a)), ascii_lower_char_dot.
  rewrite Ascii.eqb_sym, H1. now apply IH.
Qed.

(** The ASCII table is a lower-casing in the sense of [lowercases]. *)
Lemma ascii_lowercases : lowercases ascii_lower.
Proof.
  split.
  - reflexivity.
  - reflexivity.
  - apply ascii_lower_no_dot.
Qed.

Lemma lstrip_no_dot (x : string) : mem "." x = false -> lstrip "." x = x.
Proof.
  destruct x as [|a x]; [reflexivity|].
  cbn [mem lstrip lstrip_by]. intros H.
  apply orb_false_iff in H as [H _].
  rewrite Ascii.eqb_sym in H. now rewrite orb_false_r, H.
Qed.

Section Lower.

Variable lower : string -> string.
Hypothesis lower_ok : lowercases lower.

Lemma lstrip_dot_lower (r : string) :
  mem "." r = false -> lstrip "." (lower r) = lower r.
Proof.
  intros H. apply lstrip_no_dot. now apply (lower_no_dot lower lower_ok).
Qed.

Lemma suffix_extension (p : string) :
  lstrip "." (lower (suffix p)) = lower (extension_of (name p)).
Proof.
  unfold suffix, extension_of.
  pose proof (rfind_after_last "." (name p)) as H.
  destruct (rfind "." (name p)) as [i|].
  - destruct H as [r [H1 [H2 [H3 H4]]]]. rewrite H1.
    destruct i as [|i].
    + simpl in H2. rewrite H2, String.eqb_refl. now apply lstrip_dot_lower.
    + assert (String.eqb (name p) (String "." r) = false) as ->.
      { apply String.eqb_neq. intros E. rewrite E in H3. simpl in H3. lia. }
      destruct r as [|a r].
      * assert ((S (S i) <? String.length (name p))%nat = false) as ->
          by (apply Nat.ltb_ge; simpl in H3; lia).
        cbn [Nat.ltb Nat.leb andb]. now apply lstrip_dot_lower.
      * assert ((S (S i) <? String.length (name p))%nat = true) as ->
          by (apply Nat.ltb_lt; simpl in H3; lia).
        cbn [Nat.ltb Nat.leb andb]. rewrite H2.
        rewrite (lower_dot lower lower_ok).
        cbn [lstrip lstrip_by mem]. rewrite Ascii.eqb_refl. cbn [orb].
        now apply lstrip_dot_lower.
  - destruct H as [H _]. rewrite H. now apply lstrip_dot_lower.
Qed.

(** C5, as amended.  The classifier is a total function of the
    filename: it takes the filename's final path component, reads its
    extension (the text after its last ['.'], empty when it has none or
    when that ['.'] is the component's first character), lower-cases it
    as [str.lower] does, and maps [pdf] to [pdf], [doc] and [docx] to
    [docx], [ppt] and [pptx] to [pptx], [xls] and [xlsx] to [xlsx] and
    every other extension, the empty one included, to itself. *)
Theorem get_file_type_spec (filename : string) :
  get_file_type lower filename = canonical (lower (extension_of (name filename)))
  /\ canonical "pdf" = "pdf"
  /\ canonical "doc" = "docx" /\ canonical "docx" = "docx"
  /\ canonical "ppt" = "pptx" /\ canonical "pptx" = "pptx"
  /\ canonical "xls" = "xlsx" /\ canonical "xlsx" = "xlsx"
  /\ canonical "" = ""
  /\ (forall ext : string,
        ext ∉ ["pdf"; "doc"; "docx"; "ppt"; "pptx"; "xls"; "xlsx"] -> canonical ext = ext)
  /\ get_file_type lower "Report.PDF" = "pdf"
  /\ get_file_type lower "notes.docx" = "docx"
  /\ get_file_type lower "archive.tar.gz" = "gz"
  /\ get_file_type lower "README" = "".
Proof.
  assert (forall f, get_file_type lower f = canonical (lower (extension_of (name f)))) as Hext.
  { intros f. unfold get_file_type. now rewrite suffix_extension. }
  split; [apply Hext|].
  repeat (split; [reflexivity|]).
  split.
  { intros ext Hne. unfold canonical.
    repeat match goal with
    | |- context [String.eqb ext ?k] =>
        let E := fresh "E" in
        destruct (String.eqb ext k) eqn:E;
        [apply String.eqb_eq in E; subst ext; exfalso; apply Hne; set_solver|]
    end.
    reflexivity. }
  rewrite !Hext.
  change (extension_of (name "Report.PDF")) with "PDF".
  change (extension_of (name "notes.docx")) with "docx".
  change (extension_of (name "archive.tar.gz")) with "gz".
  change (extension_of (name "README")) with "".
  rewrite !(lower_ascii lower lower_ok) by reflexivity.
  repeat split; reflexivity.
Qed.

(** Where the filename has no ['/'] and does not begin with ['.'], the
    classifier is the rule of the specification. *)
Lemma name_plain (filename : string) :
  contains "/" filename = false -> startswith "." filename = false ->
  name filename = filename.
Proof.
  unfold contains, name, parts. intros Hc Hd.
  rewrite split_unfold by discriminate.
  destruct (partition "/" filename) as [[p r]|]; [discriminate|].
  destruct filename as [|a f]; [reflexivity|].
  cbn [List.filter is_empty negb andb].
  assert (String.eqb (String a f) "." = false) as ->; [|reflexivity].
  apply String.eqb_neq. intros E. rewrite E in Hd. discriminate.
Qed.

Lemma get_file_type_plain (filename : string) :
  contains "/" filename = false -> startswith "." filename = false ->
  get_file_type lower filename = spec_file_type lower filename.
Proof.
  intros Hc Hd. unfold spec_file_type, spec_extension.
  unfold get_file_type. rewrite suffix_extension, name_plain by assumption.
  unfold extension_of.
  destruct (after_last "." filename) as [r|]; [|reflexivity].
  destruct (String.eqb filename (String "." r)) eqn:E; [|reflexivity].
  apply String.eqb_eq in E. rewrite E in Hd. discriminate.
Qed.

(** A hidden file and a name whose last ['.'] sits in a directory part:
    [pathlib] sees no extension. *)
Lemma hidden_and_nested :
  get_file_type lower ".pdf" = "" /\ spec_file_type lower ".pdf" = "pdf" /\
  get_file_type lower "v1.d/README" = "" /\ spec_file_type lower "v1.d/README" = "d/readme".
Proof.
  pose proof (suffix_extension ".pdf") as H1.
  pose proof (suffix_extension "v1.d/README") as H2.
  unfold get_file_type, spec_file_type, spec_extension.
  rewrite H1, H2.
  change (extension_of (name ".pdf")) with "".
  change (extension_of (name "v1.d/README")) with "".
  change (default "" (after_last "." ".pdf")) with "pdf".
  change (default "" (after_last "." "v1.d/README")) with "d/README".
  rewrite !(lower_ascii lower lower_ok) by reflexivity.
  repeat split; reflexivity.
Qed.

End Lower.

(** The extension [gz] is none of the seven mapped ones and stays; the
    lower-casing is the ASCII table. *)
Lemma get_file_type_spec_witness :
  get_file_type ascii_lower "archive.tar.gz"
  = canonical (ascii_lower (extension_of (name "archive.tar.gz")))
  /\ canonical "gz" = "gz".
Proof.
  destruct (get_file_type_spec ascii_lower ascii_lowercases "archive.tar.gz")
    as (Hext & _ & _ & _ & _ & _ & _ & _ & _ & Hother & _).
  split; [exact Hext|].
  apply Hother. intros H.
  repeat (apply elem_of_cons in H as [H|H]; [discriminate|]).
  now apply elem_of_nil in H.
Defined.

(** C5 as it is worded fails on a hidden file and on a name whose last
    ['.'] sits in a directory part: the text after the last ['.'] is
    [pdf], resp. [d/README], but [pathlib] sees no extension.  So it is
    with the ASCII table, and with every lower-casing. *)
Lemma get_file_type_counterexample :
  (get_file_type ascii_lower ".pdf" = "" /\ spec_file_type ascii_lower ".pdf" = "pdf")
  /\ (get_file_type ascii_lower "v1.d/README" = ""
      /\ spec_file_type ascii_lower "v1.d/README" = "d/readme")
  /\ (forall lower, lowercases lower ->
        get_file_type lower ".pdf" = "" /\ spec_file_type lower ".pdf" = "pdf" /\
        get_file_type lower "v1.d/README" = "" /\
        spec_file_type lower "v1.d/README" = "d/readme").
Proof.
  split; [split; reflexivity|]. split; [split; reflexivity|].
  apply hidden_and_nested.
Qed.

End ClassifierFacts.

(* ===================================================================== *)
(** * The ingestor *)
(* ===================================================================== *)

(** Case analysis on a scrutinee of the goal, the equation substituted
    and the matches it decides reduced. *)
Ltac split_on x :=
  let E := fresh "E" in
  destruct x eqn:E; rewrite ?E; cbv beta iota zeta; cbn [Py.is_Exception];
  try reflexivity.

Section IngestorFacts.

Import Py World Ingestor.

Variable w : world.

Lemma json_get_raises (j : json) (k : string) (e : exn) :
  json_get j k = Raise e -> is_Exception e = true.
Proof. destruct j; simpl; intros H; try discriminate; now injection H as <-. Qed.

Lemma catalog_records_app (tr1 tr2 : list event) :
  catalog_records (tr1 ++ tr2) = catalog_records tr1 ++ catalog_records tr2.
Proof.
  induction tr1 as [|ev tr1 IH]; [reflexivity|].
  destruct ev as [url|url hdrs [content|record]]; simpl; now rewrite IH.
Qed.

(** [upload_to_supabase], step by step: every path through it, with
    the result and the state it ends in. *)
Lemma upload_to_supabase_run (file_path filename : string)
  (metadata : option (gmap string value)) (st : state) :
  upload_to_supabase w file_path filename metadata st =
  let document_id := uuid4 w (n_uuid st) in
  let st1 := bump_uuid st in
  match files st !! file_path with
  | None => (Ok None, st1)
  | Some content =>
      let st2 := log_call (storage_call w document_id filename content) st1 in
      match requests_post w (n_net st)
              (storage_url w "documents" (document_id +:+ "/" +:+ filename))
              (upload_headers w (content_type_of w filename)) (BData content) with
      | None => (Ok None, st2)
      | Some resp =>
          if storage_accepted resp then
            let record := record_of w document_id filename content
                            (now_isoformat w (n_clock st)) metadata in
            let st3 := log_call (catalog_call w record) (bump_clock st2) in
            match requests_post w (S (n_net st)) (catalog_url w "documents")
                    (insert_headers w) (BJson record) with
            | None => (Ok None, st3)
            | Some resp' =>
                if catalog_accepted resp' then (Ok (Some document_id), st3)
                else (Ok None, st3)
            end
          else (Ok None, st2)
      end
  end.
Proof.
  destruct st as [tr nu nc nn fs].
  cbv [upload_to_supabase try_except bind gen_uuid getsize read_file
       supabase_upload_file post ret raise lift response_json upload_failed
       datetime_now supabase_insert_record files n_net n_clock n_uuid trace
       bump_uuid bump_clock log_call storage_call catalog_call record_of
       storage_accepted catalog_accepted has_key negb andb
       content_type_of].
  split_on (fs !! file_path).
  match goal with
  | |- context [requests_post w nn ?u ?h ?b] => split_on (requests_post w nn u h b)
  end.
  match goal with |- context [status_code ?r =? 200] => split_on (status_code r =? 200) end.
  match goal with |- context [decoded ?r] => split_on (decoded r) end.
  match goal with |- context [json_truthy ?j] => split_on (json_truthy j) end.
  match goal with |- context [json_get ?j "Key"] => split_on (json_get j "Key") end.
  2: { erewrite json_get_raises by eassumption. reflexivity. }
  match goal with |- context [json_truthy ?j] => split_on (json_truthy j) end.
  match goal with
  | |- context [requests_post w (S nn) ?u ?h ?b] => split_on (requests_post w (S nn) u h b)
  end.
  match goal with |- context [status_code ?r =? 201] => split_on (status_code r =? 201) end.
  match goal with |- context [decoded ?r] => split_on (decoded r) end.
  match goal with |- context [json_truthy ?j] => split_on (json_truthy j) end.
Qed.

Lemma upload_step_run (filename content : string) (st : state) :
  upload_step w filename content st =
  let st2 := log_call (storage_call w (uuid4 w (n_uuid st)) filename content) (bump_uuid st) in
  match requests_post w (n_net st)
          (storage_url w "documents" (uuid4 w (n_uuid st) +:+ "/" +:+ filename))
          (upload_headers w (content_type_of w filename)) (BData content) with
  | None => (Raise RequestException, st2)
  | Some resp =>
      if status_code resp =? 200 then
        match decoded resp with
        | Some j => (Ok j, st2)
        | None => (Raise RequestException, st2)
        end
      else (Ok JNull, st2)
  end.
Proof.
  destruct st as [tr nu nc nn fs].
  cbv [upload_step supabase_upload_file bind post ret raise response_json
       files n_net n_clock n_uuid trace bump_uuid log_call storage_call negb].
  match goal with
  | |- context [requests_post w nn ?u ?h ?b] => split_on (requests_post w nn u h b)
  end.
  match goal with |- context [status_code ?r =? 200] => split_on (status_code r =? 200) end.
  match goal with |- context [decoded ?r] => split_on (decoded r) end.
Qed.

(** The helper returns a result with a key exactly on an accepted answer. *)
Lemma upload_step_key (filename content : string) (st : state) :
  returned_key (fst (upload_step w filename content st)) =
  match requests_post w (n_net st)
          (storage_url w "documents" (uuid4 w (n_uuid st) +:+ "/" +:+ filename))
          (upload_headers w (content_type_of w filename)) (BData content) with
  | Some resp => storage_accepted resp
  | None => false
  end.
Proof.
  rewrite upload_step_run. cbv zeta. unfold storage_accepted.
  destruct (requests_post w (n_net st) _ _ _) as [resp|]; [|reflexivity].
  destruct (status_code resp =? 200); [|reflexivity].
  destruct (decoded resp); reflexivity.
Qed.

Lemma catalog_records_snoc_storage (tr : list event) (id filename content : string) :
  catalog_records (tr ++ [storage_call w id filename content]) = catalog_records tr.
Proof. rewrite catalog_records_app. simpl. apply app_nil_r. Qed.

Lemma catalog_records_snoc_catalog (tr : list event) (record : document_record) :
  catalog_records (tr ++ [catalog_call w record]) = catalog_records tr ++ [record].
Proof. now rewrite catalog_records_app. Qed.

(** C1.  In every run of the ingestor the catalog insert comes after a
    storage upload that returned a result with a key: when the upload
    helper raises, returns nothing or returns a result without a key,
    the ingestor returns [None] and has made no catalog call; and when a
    catalog call was made, the helper had returned a result with a key
    and the call is the one event after the helper's. *)
Theorem catalog_insert_needs_storage_key
  (file_path filename : string) (metadata : option (gmap string value)) (st : state) :
  ((forall content, files st !! file_path = Some content ->
      returned_key (fst (upload_step w filename content st)) = false) ->
   fst (upload_to_supabase w file_path filename metadata st) = Ok None /\
   catalog_records (trace (snd (upload_to_supabase w file_path filename metadata st)))
   = catalog_records (trace st))
  /\
  (catalog_records (trace (snd (upload_to_supabase w file_path filename metadata st)))
   <> catalog_records (trace st) ->
   exists content record,
     files st !! file_path = Some content /\
     returned_key (fst (upload_step w filename content st)) = true /\
     trace (snd (upload_to_supabase w file_path filename metadata st))
     = trace (snd (upload_step w filename content st)) ++ [catalog_call w record]).
Proof.
  rewrite upload_to_supabase_run. cbv zeta.
  destruct (files st !! file_path) as [content|] eqn:Hfile.
  - pose proof (upload_step_key filename content st) as Hkey.
    pose proof (upload_step_run filename content st) as Hrun. cbv zeta in Hrun.
    destruct (requests_post w (n_net st) _ _ (BData content)) as [resp|].
    + destruct (storage_accepted resp) eqn:Hacc.
      * split.
        { intros H. rewrite (H content eq_refl) in Hkey. discriminate. }
        intros _. eexists content, _. split; [reflexivity|]. split; [exact Hkey|].
        assert (snd (upload_step w filename content st)
                = log_call (storage_call w (uuid4 w (n_uuid st)) filename content)
                           (bump_uuid st)) as ->.
        { rewrite Hrun. destruct (status_code resp =? 200); [|reflexivity].
          now destruct (decoded resp). }
        destruct (requests_post w (S (n_net st)) _ _ _) as [resp'|];
          [destruct (catalog_accepted resp')|]; reflexivity.
      * split.
        { intros _. split; [reflexivity|]. cbn [snd trace log_call].
          apply catalog_records_snoc_storage. }
        intros H. exfalso. apply H. cbn [snd trace log_call].
        apply catalog_records_snoc_storage.
    + split.
      { intros _. split; [reflexivity|]. cbn [snd trace log_call].
        apply catalog_records_snoc_storage. }
      intros H. exfalso. apply H. cbn [snd trace log_call].
      apply catalog_records_snoc_storage.
  - split.
    + intros _. split; reflexivity.
    + intros H. exfalso. apply H. reflexivity.
Qed.

(** An accepted answer, spelled out: status 200 and a body that decodes
    to an object whose ['Key'] member is true. *)
Lemma storage_accepted_iff (resp : response) :
  storage_accepted resp = true <->
  status_code resp = 200 /\
  exists members k,
    decoded resp = Some (JObj members) /\
    member_get "Key" members = Some k /\ json_truthy k = true.
Proof.
  unfold storage_accepted, has_key. split.
  - intros H. apply andb_true_iff in H as [Hs H]. apply Z.eqb_eq in Hs.
    split; [assumption|].
    destruct (decoded resp) as [j|]; [|discriminate].
    apply andb_true_iff in H as [_ H].
    destruct j as [| | | | |members]; try discriminate.
    cbn [json_get] in H.
    destruct (member_get "Key" members) as [k|] eqn:Hm; [|discriminate].
    exists members, k. split; [reflexivity|]. split; [exact Hm | exact H].
  - intros [Hs [members [k [Hd [Hm Hk]]]]].
    rewrite Hs, Hd. cbn [json_get]. rewrite Hm. simpl. rewrite Hk.
    destruct members; [discriminate|reflexivity].
Qed.

(** C6, as amended.  The storage upload is treated as a success exactly
    when the answer has status 200 and its body decodes to an object
    whose ['Key'] member is true: then, and only then, the ingestor goes
    on to the catalog insert; on any other answer it returns [None],
    the storage call being the only call it made. *)
Theorem storage_upload_accepted
  (file_path filename : string) (metadata : option (gmap string value))
  (st : state) (content : string) (resp : response) :
  files st !! file_path = Some content ->
  requests_post w (n_net st)
    (storage_url w "documents" (uuid4 w (n_uuid st) +:+ "/" +:+ filename))
    (upload_headers w (content_type_of w filename)) (BData content) = Some resp ->
  (storage_accepted resp = true <->
   status_code resp = 200 /\
   exists members k,
     decoded resp = Some (JObj members) /\
     member_get "Key" members = Some k /\ json_truthy k = true)
  /\
  (storage_accepted resp = true ->
   exists record,
     trace (snd (upload_to_supabase w file_path filename metadata st))
     = trace st ++ [storage_call w (uuid4 w (n_uuid st)) filename content;
                    catalog_call w record])
  /\
  (storage_accepted resp = false ->
   fst (upload_to_supabase w file_path filename metadata st) = Ok None /\
   trace (snd (upload_to_supabase w file_path filename metadata st))
   = trace st ++ [storage_call w (uuid4 w (n_uuid st)) filename content]).
Proof.
  intros Hfile Hpost. split; [apply storage_accepted_iff|].
  rewrite upload_to_supabase_run. cbv zeta. rewrite Hfile, Hpost.
  split; intros Hacc; rewrite Hacc.
  - eexists.
    destruct (requests_post w (S (n_net st)) _ _ _) as [resp'|];
      [destruct (catalog_accepted resp')|];
      cbn [snd trace log_call bump_clock bump_uuid];
      now rewrite <- app_assoc.
  - split; reflexivity.
Qed.

(** What the metadata dictionary holds: with a non-empty [metadata]
    argument, the supplied name (else the filename), the supplied author,
    date and link (else [None]); without one, the filename, [None], the
    current time and [None]. *)
Lemma build_metadata_supplied (filename file_type now : string)
  (m : gmap string value) :
  m <> ∅ ->
  build_metadata filename file_type now (Some m) =
  {| md_title := default (VStr filename) (m !! "name");
     md_author := default VNone (m !! "author");
     md_upload_date := now;
     md_last_modified := default VNone (m !! "date");
     md_file_type := file_type;
     md_source_url := default VNone (m !! "url") |}.
Proof.
  intros Hm. unfold build_metadata, meta_get.
  now rewrite (bool_decide_eq_true_2 _ Hm).
Qed.

Lemma build_metadata_absent (filename file_type now : string) :
  build_metadata filename file_type now None =
  {| md_title := VStr filename;
     md_author := VNone;
     md_upload_date := now;
     md_last_modified := VStr now;
     md_file_type := file_type;
     md_source_url := VNone |}.
Proof. reflexivity. Qed.

End IngestorFacts.

(** The helper answered 500 and nothing went to the catalog; in the
    friendly world the catalog call follows an upload that returned a key. *)
Lemma catalog_insert_needs_storage_key_witness :
  (fst (Ingestor.upload_to_supabase Demo.storage_down "/tmp/tmpabc/a.pdf" "a.pdf"
          (Some Demo.url_only) Demo.downloaded) = Py.Ok None /\
   World.catalog_records
     (World.trace (snd (Ingestor.upload_to_supabase Demo.storage_down "/tmp/tmpabc/a.pdf"
                          "a.pdf" (Some Demo.url_only) Demo.downloaded)))
   = World.catalog_records (World.trace Demo.downloaded))
  /\
  (exists content record,
     World.files Demo.downloaded !! "/tmp/tmpabc/a.pdf" = Some content /\
     Ingestor.returned_key
       (fst (Ingestor.upload_step Demo.friendly "a.pdf" content Demo.downloaded)) = true /\
     World.trace (snd (Ingestor.upload_to_supabase Demo.friendly "/tmp/tmpabc/a.pdf" "a.pdf"
                         (Some Demo.url_only) Demo.downloaded))
     = World.trace (snd (Ingestor.upload_step Demo.friendly "a.pdf" content Demo.downloaded))
       ++ [Ingestor.catalog_call Demo.friendly record]).
Proof.
  split.
  - apply (proj1 (catalog_insert_needs_storage_key Demo.storage_down
                    "/tmp/tmpabc/a.pdf" "a.pdf" (Some Demo.url_only) Demo.downloaded)).
    intros content H. vm_compute in H. injection H as <-. vm_compute. reflexivity.
  - apply (proj2 (catalog_insert_needs_storage_key Demo.friendly
                    "/tmp/tmpabc/a.pdf" "a.pdf" (Some Demo.url_only) Demo.downloaded)).
    vm_compute. discriminate.
Defined.

(** An answer of status 500 is not accepted; one of status 200 with a
    key is. *)
Lemma storage_upload_accepted_witness :
  (fst (Ingestor.upload_to_supabase Demo.storage_down "/tmp/tmpabc/a.pdf" "a.pdf"
          (Some Demo.url_only) Demo.downloaded) = Py.Ok None /\
   World.trace (snd (Ingestor.upload_to_supabase Demo.storage_down "/tmp/tmpabc/a.pdf" "a.pdf"
                       (Some Demo.url_only) Demo.downloaded))
   = [Ingestor.storage_call Demo.storage_down "u" "a.pdf" "%PDF-1.4"])
  /\
  (exists record,
     World.trace (snd (Ingestor.upload_to_supabase Demo.friendly "/tmp/tmpabc/a.pdf" "a.pdf"
                         (Some Demo.url_only) Demo.downloaded))
     = [Ingestor.storage_call Demo.friendly "u" "a.pdf" "%PDF-1.4";
        Ingestor.catalog_call Demo.friendly record]).
Proof.
  split.
  - apply (proj2 (proj2 (storage_upload_accepted Demo.storage_down
                           "/tmp/tmpabc/a.pdf" "a.pdf" (Some Demo.url_only) Demo.downloaded
                           "%PDF-1.4"
                           {| World.status_code := 500; World.text := "unavailable";
                              World.decoded := None |}
                           eq_refl eq_refl))).
    reflexivity.
  - apply (proj1 (proj2 (storage_upload_accepted Demo.friendly
                           "/tmp/tmpabc/a.pdf" "a.pdf" (Some Demo.url_only) Demo.downloaded
                           "%PDF-1.4"
                           {| World.status_code := 200; World.text := "";
                              World.decoded := Some (Py.JObj [("Key", Py.JStr "documents/k")]) |}
                           eq_refl eq_refl))).
    reflexivity.
Defined.

(** C6 as it is worded fails: an answer of status 201, of the 200 class
    and with a key, is a failure of the row; no catalog call follows. *)
Lemma storage_upload_counterexample :
  World.requests_post Demo.storage_created 0
    (Ingestor.storage_url Demo.storage_created "documents" "u/a.pdf")
    (Ingestor.upload_headers Demo.storage_created
       (Ingestor.content_type_of Demo.storage_created "a.pdf"))
    (World.BData "%PDF-1.4")
  = Some {| World.status_code := 201; World.text := "";
            World.decoded := Some (Py.JObj [("Key", Py.JStr "documents/k")]) |}
  /\
  Ingestor.spec_storage_accepted
    {| World.status_code := 201; World.text := "";
       World.decoded := Some (Py.JObj [("Key", Py.JStr "documents/k")]) |} = true
  /\
  fst (Ingestor.upload_to_supabase Demo.storage_created "/tmp/tmpabc/a.pdf" "a.pdf"
         (Some Demo.url_only) Demo.downloaded) = Py.Ok None
  /\
  World.catalog_records
    (World.trace (snd (Ingestor.upload_to_supabase Demo.storage_created "/tmp/tmpabc/a.pdf"
                         "a.pdf" (Some Demo.url_only) Demo.downloaded))) = [].
Proof. repeat split; vm_compute; reflexivity. Qed.


(** C2, on the input the claim misses.  The ingestor is called with a
    metadata dictionary that holds the link and no date, as [main] calls
    it for a sheet without a date column: the title is the filename, the
    author is [None], the link is the one supplied and the upload
    timestamp is the current time, but the last-modified timestamp is
    [None], not the current time, in the record and in its nested
    metadata. *)
Theorem last_modified_without_date :
  World.catalog_records
    (World.trace (snd (Ingestor.upload_to_supabase Demo.friendly "/tmp/tmpabc/a.pdf" "a.pdf"
                         (Some Demo.url_only) Demo.downloaded)))
  = [ Ingestor.record_of Demo.friendly "u" "a.pdf" "%PDF-1.4" "2025-01-01T00:00:00" (Some Demo.url_only) ]
  /\
  Ingestor.build_metadata "a.pdf" "pdf" "2025-01-01T00:00:00" (Some Demo.url_only)
  = {| World.md_title := Py.VStr "a.pdf";
       World.md_author := Py.VNone;
       World.md_upload_date := "2025-01-01T00:00:00";
       World.md_last_modified := Py.VNone;
       World.md_file_type := "pdf";
       World.md_source_url := Py.VStr "https://example.com/a.pdf" |}
  /\
  World.rec_last_modified
    (Ingestor.record_of Demo.friendly "u" "a.pdf" "%PDF-1.4" "2025-01-01T00:00:00" (Some Demo.url_only))
  = Py.VNone
  /\
  World.rec_upload_date
    (Ingestor.record_of Demo.friendly "u" "a.pdf" "%PDF-1.4" "2025-01-01T00:00:00" (Some Demo.url_only))
  = "2025-01-01T00:00:00".
Proof. repeat split; vm_compute; reflexivity. Qed.

(* ===================================================================== *)
(** * The fetcher *)
(* ===================================================================== *)

Section FetcherFacts.

Import Py World Fetcher.

Variable w : world.

(** The resolver never raises. *)
Lemma resolve_total (url : string) : exists url', Resolver.resolve url = Ok url'.
Proof.
  destruct (PyStr.contains "drive.google.com/file/d/" url) eqn:H1.
  - destruct (contains_suffix "drive.google.com" "/file/d/" url H1) as [pre [rest Hp]].
    eexists. now apply resolve_file_d with (pre := pre) (rest := rest).
  - destruct (PyStr.contains "drive.google.com/open?id=" url) eqn:H2.
    + destruct (contains_suffix "drive.google.com/" "open?id=" url H2) as [pre [rest Hp]].
      eexists. now apply resolve_open_id with (pre := pre) (rest := rest).
    + exists url. unfold Resolver.resolve. now rewrite H1, H2.
Qed.

Lemma index_raises {A} (l : list A) (i : nat) (e : exn) :
  index l i = Raise e -> is_Exception e = true.
Proof. unfold index. destruct (nth_error l i); intros H; [discriminate | now injection H as <-]. Qed.

Lemma index_last_raises {A} (l : list A) (e : exn) :
  index_last l = Raise e -> is_Exception e = true.
Proof. unfold index_last. destruct (rev l); intros H; [now injection H as <- | discriminate]. Qed.

Lemma filename_from_url_raises (url : string) (headers : list (string * string)) (e : exn) :
  filename_from_url w url headers = Raise e -> is_Exception e = true.
Proof.
  unfold filename_from_url, bind_result.
  destruct (index_last (PyStr.split "/" url)) as [a|e1] eqn:E1.
  - destruct (index (PyStr.split "?" a) 0) as [b|e2] eqn:E2.
    + destruct (negb (PyStr.contains "." b)); [|discriminate].
      destruct (guess_extension w _) as [ext|]; [|discriminate].
      destruct (PyStr.truthy ext); discriminate.
    + intros H; injection H as <-. eapply index_raises; eassumption.
  - intros H; injection H as <-. eapply index_last_raises; eassumption.
Qed.

Lemma choose_filename_raises (url : string) (headers : list (string * string)) (e : exn) :
  choose_filename w url headers = Raise e -> is_Exception e = true.
Proof.
  unfold choose_filename.
  destruct (header_get "Content-Disposition" headers) as [cd|];
    [|apply filename_from_url_raises].
  destruct (PyStr.truthy cd && PyStr.contains "filename=" cd);
    [|apply filename_from_url_raises].
  unfold bind_result.
  destruct (index (PyStr.split "filename=" cd) 1) as [x|e1] eqn:E1; [discriminate|].
  intros H; injection H as <-. eapply index_raises; eassumption.
Qed.

(** Writing the chunks touches the files only. *)
Lemma write_chunks_run (path : string) (chunks : list string) (st : state) :
  exists fs, write_chunks path chunks st = (Ok tt, set_files fs st).
Proof.
  revert st; induction chunks as [|chunk chunks IH]; intros st.
  - exists (files st). now destruct st.
  - cbn [write_chunks]. unfold bind, write_chunk.
    destruct (IH (set_files (<[path := default EmptyString (files st !! path) +:+ chunk]>
                               (files st)) st)) as [fs ->].
    exists fs. reflexivity.
Qed.

(** [download_file] never raises; it issues exactly one request, to the
    resolved link, and draws no identifier and reads no clock. *)
Lemma download_file_run (url temp_dir : string) (st : state) :
  exists r st' url',
    download_file w url temp_dir st = (Ok r, st') /\
    Resolver.resolve url = Ok url' /\
    trace st' = trace st ++ [EvGet url'] /\
    n_uuid st' = n_uuid st /\ n_clock st' = n_clock st /\ n_net st' = S (n_net st).
Proof.
  destruct (resolve_total url) as [url' Hres].
  destruct st as [tr nu nc nn fs].
  cbv [download_file try_except bind lift get ret raise open_wb
       files n_net n_clock n_uuid trace log_call set_files].
  rewrite Hres. cbv beta iota zeta.
  split_on (requests_get w nn url').
  2: { eexists _, _, _. repeat split; reflexivity. }
  match goal with |- context [(400 <=? ?a) && (?b <? 600)] =>
    split_on ((400 <=? a) && (b <? 600)) end.
  1: { eexists _, _, _. repeat split; reflexivity. }
  match goal with |- context [choose_filename w ?u ?h] => split_on (choose_filename w u h) end.
  2: { erewrite choose_filename_raises by eassumption.
       eexists _, _, _. repeat split; reflexivity. }
  match goal with |- context [header_get "content-length" ?h] =>
    split_on (header_get "content-length" h) end.
  - match goal with |- context [int_of_str w ?v] => split_on (int_of_str w v) end.
    2: { eexists _, _, _. repeat split; reflexivity. }
    match goal with |- context [writable w ?p] => split_on (writable w p) end.
    2: { eexists _, _, _. repeat split; reflexivity. }
    match goal with |- context [write_chunks ?p ?c ?s] =>
      destruct (write_chunks_run p c s) as [fs' ->] end.
    cbv beta iota zeta.
    match goal with |- context [g_broken ?r] => split_on (g_broken r) end;
      eexists _, _, _; repeat split; reflexivity.
  - match goal with |- context [writable w ?p] => split_on (writable w p) end.
    2: { eexists _, _, _. repeat split; reflexivity. }
    match goal with |- context [write_chunks ?p ?c ?s] =>
      destruct (write_chunks_run p c s) as [fs' ->] end.
    cbv beta iota zeta.
    match goal with |- context [g_broken ?r] => split_on (g_broken r) end;
      eexists _, _, _; repeat split; reflexivity.
Qed.

End FetcherFacts.

(* ===================================================================== *)
(** * The orchestrator *)
(* ===================================================================== *)

Section OrchestratorFacts.

Import Py World Ingestor Orchestrator.

Variable w : world.

(** What one ingestion adds to the trace. *)
Lemma upload_to_supabase_calls (file_path filename : string)
  (metadata : option (gmap string value)) (st : state) :
  exists r st',
    upload_to_supabase w file_path filename metadata st = (Ok r, st') /\
    n_uuid st' = S (n_uuid st) /\
    (trace st' = trace st \/
     (exists content,
        trace st' = trace st ++ [storage_call w (uuid4 w (n_uuid st)) filename content]) \/
     (exists content now,
        trace st' = trace st ++
          [storage_call w (uuid4 w (n_uuid st)) filename content;
           catalog_call w (record_of w (uuid4 w (n_uuid st)) filename content now metadata)])).
Proof.
  rewrite upload_to_supabase_run. cbv zeta.
  destruct (files st !! file_path) as [content|].
  2: { eexists _, _. split; [reflexivity|]. split; [reflexivity|]. now left. }
  destruct (requests_post w (n_net st) _ _ (BData content)) as [resp|].
  2: { eexists _, _. split; [reflexivity|]. split; [reflexivity|].
       right; left. now exists content. }
  destruct (storage_accepted resp).
  2: { eexists _, _. split; [reflexivity|]. split; [reflexivity|].
       right; left. now exists content. }
  destruct (requests_post w (S (n_net st)) _ _ _) as [resp'|];
    [destruct (catalog_accepted resp')|];
    (eexists _, _; split; [reflexivity|]; split; [reflexivity|];
     right; right; exists content, (now_isoformat w (n_clock st));
     cbn [trace log_call bump_clock bump_uuid]; now rewrite <- app_assoc).
Qed.

(** The metadata of a row is gathered without any effect, and holds the
    link cell under ['url']. *)
Lemma gather_metadata_run (a : args) (df : dataframe) (row : gmap string value)
  (url : value) (st : state) :
  (exists m, gather_metadata w a df row url st = (Ok m, st) /\ m !! "url" = Some url) \/
  gather_metadata w a df row url st = (Raise KeyError, st).
Proof.
  unfold gather_metadata, bind, row_get, ret, raise.
  destruct (bound (name_column a) df) as [c1|];
    [destruct (row !! c1) as [v1|]; [|now right]|];
  (destruct (bound (author_column a) df) as [c2|];
    [destruct (row !! c2) as [v2|]; [|now right]|]);
  (destruct (bound (date_column a) df) as [c3|];
    [destruct (row !! c3) as [v3|]; [|now right];
     destruct v3 as [| |s| | | |iso|]; try destruct (to_datetime w s)|]);
  (destruct (bound (type_column a) df) as [c4|];
    [destruct (row !! c4) as [v4|]; [|now right]|]);
  left; eexists; (split; [reflexivity|]); now simplify_map_eq.
Qed.

(** What one turn of the loop adds to the trace. *)
Lemma process_row_calls (a : args) (df : dataframe) (temp_dir : string)
  (row : gmap string value) (counts : Z * Z) (st : state) :
  exists r st' new draws,
    process_row w a df temp_dir row counts st = (r, st') /\
    trace st' = trace st ++ new /\
    n_uuid st' = (n_uuid st + draws)%nat /\
    row_calls w row (column a) (n_uuid st) new draws.
Proof.
  assert (forall r, exists r' st' new draws,
            (r, st) = (r' : result (Z * Z), st') /\ trace st' = trace st ++ new /\
            n_uuid st' = (n_uuid st + draws)%nat /\
            row_calls w row (column a) (n_uuid st) new draws) as Hidle.
  { intros r. exists r, st, [], 0%nat.
    rewrite app_nil_r, Nat.add_0_r. repeat split. constructor. }
  unfold process_row. destruct counts as [successful failed].
  unfold bind at 1. unfold row_get.
  destruct (row !! column a) as [v|] eqn:Hcell; [|apply Hidle]. unfold ret at 1.
  destruct (isna v); [apply Hidle|].
  destruct v as [| |u| | | | |]; try apply Hidle.
  destruct (negb (PyStr.truthy (PyStr.strip_ws u))); [apply Hidle|].
  unfold bind at 1.
  destruct (gather_metadata_run a df row (VStr u) st) as [[m [-> Hm]]| ->];
    [|apply Hidle].
  unfold bind at 1.
  destruct (download_file_run w u temp_dir st)
    as [dl [st1 [url [-> [Hres [Htr [Hnu [_ _]]]]]]]].
  assert (forall r, exists r' st' new draws,
            (r, st1) = (r' : result (Z * Z), st') /\ trace st' = trace st ++ new /\
            n_uuid st' = (n_uuid st + draws)%nat /\
            row_calls w row (column a) (n_uuid st) new draws) as Hfetched.
  { intros r. exists r, st1, [EvGet url], 0%nat.
    rewrite Nat.add_0_r. repeat split; try assumption.
    eapply row_fetch_only; eauto. }
  destruct dl as [[temp_file_path filename]|]; [|apply Hfetched].
  destruct (negb (PyStr.truthy temp_file_path)); [apply Hfetched|].
  unfold bind.
  destruct (upload_to_supabase_calls temp_file_path filename (Some m) st1)
    as [id [st2 [-> [Hnu2 Hcalls]]]].
  rewrite Hnu in Hnu2, Hcalls. rewrite Htr in Hcalls.
  assert (n_uuid st2 = (n_uuid st + 1)%nat) as Hdraw by lia.
  destruct id as [id|]; [destruct (PyStr.truthy id)|]; unfold ret;
    (eexists _, st2;
     destruct Hcalls as [Hc|[[content Hc]|[content [now Hc]]]];
     [ exists [EvGet url], 1%nat; split; [reflexivity|];
       repeat split; try assumption; eapply row_fetch_only; eauto
     | eexists _, 1%nat; split; [reflexivity|]; rewrite <- app_assoc in Hc;
       repeat split; [exact Hc | assumption |]; eapply row_fetch_store; eauto
     | eexists _, 1%nat; split; [reflexivity|]; rewrite <- app_assoc in Hc;
       repeat split; [exact Hc | assumption |]; eapply row_fetch_store_insert; eauto ]).
Qed.

(** An invariant of the trace and of the number of identifiers drawn
    that every row preserves holds after the loop ... *)
Lemma process_rows_invariant (I : list event -> nat -> Prop)
  (a : args) (df : dataframe) (temp_dir : string) (rs : list (gmap string value)) :
  (forall row tr n new draws,
     row ∈ rs -> I tr n -> row_calls w row (column a) n new draws ->
     I (tr ++ new) (n + draws)%nat) ->
  forall counts st,
    I (trace st) (n_uuid st) ->
    I (trace (snd (process_rows w a df temp_dir rs counts st)))
      (n_uuid (snd (process_rows w a df temp_dir rs counts st))).
Proof.
  induction rs as [|row rs IH]; intros Hstep counts st HI; [exact HI|].
  cbn [process_rows]. unfold bind.
  destruct (process_row_calls a df temp_dir row counts st)
    as [r [st' [new [draws [-> [Htr [Hnu Hcalls]]]]]]].
  assert (I (trace st') (n_uuid st')) as HI'.
  { rewrite Htr, Hnu. eapply Hstep; eauto. left. }
  destruct r as [counts'|e]; [|exact HI'].
  apply IH; [|exact HI'].
  intros row' tr n new' draws' Hin. apply Hstep. now right.
Qed.

(** ... and after the whole run. *)
Lemma main_invariant (I : list event -> nat -> Prop) (a : args) :
  I [] 0%nat ->
  (forall df row tr n new draws,
     read_excel w (excel_file a) (sheet a) = Some df -> row ∈ rows df ->
     I tr n -> row_calls w row (column a) n new draws ->
     I (tr ++ new) (n + draws)%nat) ->
  I (trace (snd (main w a initial))) (n_uuid (snd (main w a initial))).
Proof.
  intros H0 Hstep. unfold main, try_except, bind, ret, raise, finally.
  destruct (negb (path_exists w (excel_file a))); [exact H0|].
  destruct (read_excel w (excel_file a) (sheet a)) as [df|] eqn:Hdf; [|exact H0].
  destruct (negb (bool_decide (column a ∈ columns df))); [exact H0|].
  destruct (mkdtemp w) as [temp_dir|]; [|exact H0].
  pose proof (process_rows_invariant I a df temp_dir (rows df)
                (fun row tr n new draws Hin => Hstep df row tr n new draws eq_refl Hin)
                (0, 0) initial H0) as HI.
  destruct (process_rows w a df temp_dir (rows df) (0, 0) initial) as [r st'].
  destruct r as [counts|e]; [exact HI|].
  destruct (is_Exception e); exact HI.
Qed.

Lemma fetched_urls_app (tr1 tr2 : list event) :
  fetched_urls (tr1 ++ tr2) = fetched_urls tr1 ++ fetched_urls tr2.
Proof.
  induction tr1 as [|ev tr1 IH]; [reflexivity|].
  destruct ev; simpl; now rewrite IH.
Qed.

(** The catalog records a row adds: none, or the one of its insert. *)
Lemma row_calls_records (row : gmap string value) (link_column : string)
  (n : nat) (new : list event) (draws : nat) :
  row_calls w row link_column n new draws ->
  (draws <= 1)%nat /\
  (catalog_records new = [] \/
   exists u url filename content now m,
     row !! link_column = Some (VStr u) /\
     Resolver.resolve u = Ok url /\
     m !! "url" = Some (VStr u) /\
     url ∈ fetched_urls new /\
     draws = 1%nat /\
     catalog_records new = [record_of w (uuid4 w n) filename content now (Some m)]).
Proof.
  intros [|u url d Hu Hr Hd|u url fn c Hu Hr|u url fn c now m Hu Hr Hm].
  - split; [lia | now left].
  - split; [lia | now left].
  - split; [lia | now left].
  - split; [lia|]. right. exists u, url, fn, c, now, m.
    repeat split; try assumption. simpl. left.
Qed.



Lemma record_of_source (id filename content now u : string) (m : gmap string value) :
  m !! "url" = Some (VStr u) ->
  md_source_url (rec_metadata (record_of w id filename content now (Some m))) = VStr u.
Proof.
  intros Hm. unfold record_of, make_record. cbn [rec_metadata].
  rewrite build_metadata_supplied by (intros ->; now rewrite lookup_empty in Hm).
  cbn [md_source_url]. now rewrite Hm.
Qed.

Lemma sources_raw_step (a : args) (df : dataframe) (row : gmap string value)
  (tr : list event) (n : nat) (new : list event) (draws : nat) :
  read_excel w (excel_file a) (sheet a) = Some df -> row ∈ rows df ->
  sources_raw w a tr n -> row_calls w row (column a) n new draws ->
  sources_raw w a (tr ++ new) (n + draws).
Proof.
  intros Hdf Hrow HI Hcalls record.
  rewrite catalog_records_app, fetched_urls_app. intros Hin.
  apply elem_of_app in Hin as [Hin|Hin].
  - destruct (HI record Hin) as [df' [row' [u [url [H1 [H2 [H3 [H4 [H5 H6]]]]]]]]].
    exists df', row', u, url. repeat split; try assumption.
    apply elem_of_app. now left.
  - apply row_calls_records in Hcalls as [_ [Hnone|Hrec]].
    + rewrite Hnone in Hin. now apply elem_of_nil in Hin.
    + destruct Hrec as [u [url [fn [c [now [m [Hu [Hr [Hm [Hf [_ Hrec]]]]]]]]]]].
      rewrite Hrec in Hin. apply list_elem_of_singleton in Hin as ->.
      exists df, row, u, url. repeat split; try assumption.
      * now apply record_of_source.
      * apply elem_of_app. now right.
Qed.

(** C10.  The record a row adds to the catalog holds, as the
    [source_url] of its metadata, the text of that row's link cell as it
    stands in the cell, while the download of the row went to the
    resolved link.  So every record a run inserts holds the raw link
    cell of a row of the sheet. *)
Theorem source_url_is_raw_link (a : args) :
  (forall (df : dataframe) (temp_dir : string) (row : gmap string value)
          (counts : Z * Z) (st : state),
     exists new,
       trace (snd (process_row w a df temp_dir row counts st)) = trace st ++ new /\
       forall record, record ∈ catalog_records new ->
         exists u url,
           row !! column a = Some (VStr u) /\
           md_source_url (rec_metadata record) = VStr u /\
           Resolver.resolve u = Ok url /\
           url ∈ fetched_urls new)
  /\
  (forall record : document_record,
     record ∈ catalog_records (trace (snd (main w a initial))) ->
     exists df row u url,
       read_excel w (excel_file a) (sheet a) = Some df /\
       row ∈ rows df /\
       row !! column a = Some (VStr u) /\
       md_source_url (rec_metadata record) = VStr u /\
       Resolver.resolve u = Ok url /\
       url ∈ fetched_urls (trace (snd (main w a initial)))).
Proof.
  split.
  - intros df temp_dir row counts st.
    destruct (process_row_calls a df temp_dir row counts st)
      as [r [st' [new [draws [-> [Htr [_ Hcalls]]]]]]].
    exists new. split; [exact Htr|]. intros record Hin.
    apply row_calls_records in Hcalls as [_ [Hnone|Hrec]].
    + rewrite Hnone in Hin. now apply elem_of_nil in Hin.
    + destruct Hrec as [u [url [fn [c [now [m [Hu [Hr [Hm [Hf [_ Hrec]]]]]]]]]]].
      rewrite Hrec in Hin. apply list_elem_of_singleton in Hin as ->.
      exists u, url. repeat split; try assumption. now apply record_of_source.
  - apply (main_invariant (sources_raw w a) a).
    + intros record Hin. now apply elem_of_nil in Hin.
    + intros df row tr n new draws. apply sources_raw_step.
Qed.

(** A text of blanks strips to nothing, and no other text does. *)
Lemma skip_all (f : string -> bool) (cs : list string) :
  forallb f cs = true -> PyStr.skip f cs = [].
Proof.
  induction cs as [|c cs IH]; [reflexivity|].
  cbn [forallb PyStr.skip]. intros H.
  apply andb_true_iff in H as [-> H]. now apply IH.
Qed.

Lemma skip_nil (f : string -> bool) (cs : list string) :
  PyStr.skip f cs = [] -> forallb f cs = true.
Proof.
  induction cs as [|c cs IH]; [reflexivity|].
  cbn [forallb PyStr.skip]. destruct (f c); [exact IH | discriminate].
Qed.

Lemma characters_non_empty (s : string) :
  Forall (fun c => c <> EmptyString) (PyStr.characters s).
Proof.
  induction s as [|b s IH]; [constructor|].
  cbn [PyStr.characters].
  destruct (PyStr.continued s).
  - destruct (PyStr.characters s) as [|c cs].
    + constructor; [discriminate | constructor].
    + apply Forall_cons in IH as [_ IH]. constructor; [discriminate | exact IH].
  - constructor; [discriminate | exact IH].
Qed.

Lemma join_empty (cs : list string) :
  Forall (fun c => c <> EmptyString) cs -> PyStr.join cs = EmptyString -> cs = [].
Proof.
  destruct cs as [|c cs]; [reflexivity|].
  intros H. apply Forall_cons in H as [Hc _].
  cbn [PyStr.join]. destruct c as [|x c]; [now destruct Hc | discriminate].
Qed.

Lemma skip_suffix (f : string -> bool) (cs : list string) :
  exists pre, cs = pre ++ PyStr.skip f cs /\ forallb f pre = true.
Proof.
  induction cs as [|c cs IH]; [now exists []|].
  cbn [PyStr.skip]. destruct (f c) eqn:E.
  - destruct IH as [pre [H1 H2]]. exists (c :: pre). split.
    + cbn [app]. now rewrite <- H1.
    + cbn [forallb]. now rewrite E.
  - now exists [].
Qed.

Lemma forallb_of_rev (f : string -> bool) (cs : list string) :
  forallb f (List.rev cs) = true -> forallb f cs = true.
Proof.
  rewrite !forallb_forall. intros H c Hc. apply H. now apply in_rev in Hc.
Qed.

Lemma strip_ws_blank (s : string) :
  PyStr.blank s = true -> PyStr.strip_ws s = EmptyString.
Proof.
  unfold PyStr.blank, PyStr.strip_ws. intros H.
  now rewrite (skip_all _ _ H).
Qed.

Lemma strip_ws_empty (s : string) :
  PyStr.strip_ws s = EmptyString -> PyStr.blank s = true.
Proof.
  unfold PyStr.blank, PyStr.strip_ws. intros H.
  destruct (skip_suffix PyStr.isspace (PyStr.characters s)) as [pre [Hpre Hall]].
  assert (Forall (fun c => c <> EmptyString) (PyStr.skip PyStr.isspace (PyStr.characters s)))
    as Hne.
  { pose proof (characters_non_empty s) as Hs. rewrite Hpre in Hs.
    now apply Forall_app in Hs as [_ Hs]. }
  apply join_empty in H.
  2: { apply Forall_rev.
       destruct (skip_suffix PyStr.isspace
                   (List.rev (PyStr.skip PyStr.isspace (PyStr.characters s))))
         as [pre' [Hpre' _]].
       apply Forall_rev in Hne. rewrite Hpre' in Hne.
       now apply Forall_app in Hne as [_ Hne]. }
  apply (f_equal (@List.rev string)) in H. rewrite rev_involutive in H. cbn [List.rev] in H.
  apply skip_nil, forallb_of_rev in H.
  rewrite Hpre, forallb_app, Hall, H. reflexivity.
Qed.

(** C8.  A row whose link cell is missing, empty or made of blanks (the
    blanks of Unicode, which are what [strip()] removes) is skipped: the
    turn of the loop returns the two counters as they were and leaves
    the state as it was, so that no download, no upload and no catalog
    insert was made, and the loop goes on with the next row.  A string
    cell is skipped in no other case. *)
Theorem blank_link_row_skipped (a : args) (df : dataframe) (temp_dir : string)
  (row : gmap string value) (v : value) (counts : Z * Z) (st : state) :
  row !! column a = Some v ->
  (isna v = true \/ exists s, v = VStr s /\ PyStr.blank s = true) ->
  process_row w a df temp_dir row counts st = (Ok counts, st) /\
  (forall rest,
     process_rows w a df temp_dir (row :: rest) counts st
     = process_rows w a df temp_dir rest counts st) /\
  (forall s, PyStr.blank s = true <-> PyStr.truthy (PyStr.strip_ws s) = false).
Proof.
  intros Hcell Hblank.
  assert (process_row w a df temp_dir row counts st = (Ok counts, st)) as Hskip.
  { unfold process_row. destruct counts as [successful failed].
    unfold bind, row_get. rewrite Hcell. unfold ret.
    destruct Hblank as [Hna|[s [-> Hs]]].
    - now rewrite Hna.
    - cbn [isna]. now rewrite (strip_ws_blank s Hs). }
  split; [exact Hskip|]. split.
  - intros rest. cbn [process_rows]. unfold bind. now rewrite Hskip.
  - intros s. split.
    + intros H. now rewrite (strip_ws_blank s H).
    + intros H. apply strip_ws_empty.
      destruct (PyStr.strip_ws s); [reflexivity | discriminate].
Qed.

Lemma process_rows_app (a : args) (df : dataframe) (temp_dir : string)
  (rs1 rs2 : list (gmap string value)) (counts : Z * Z) (st : state) :
  process_rows w a df temp_dir (rs1 ++ rs2) counts st =
  match process_rows w a df temp_dir rs1 counts st with
  | (Ok counts', st') => process_rows w a df temp_dir rs2 counts' st'
  | (Raise e, st') => (Raise e, st')
  end.
Proof.
  revert counts st; induction rs1 as [|row rs1 IH]; intros counts st; [reflexivity|].
  cbn [app process_rows]. unfold bind.
  destruct (process_row w a df temp_dir row counts st) as [[counts'|e] st'];
    [apply IH | reflexivity].
Qed.

(** C9.  A row whose link cell holds a value that is neither missing
    nor a string is not skipped and not counted: its turn of the loop
    raises [AttributeError] before any call; the exception passes the
    loop, is caught by the handler of the run, and the run exits with
    status 1, the state being the one the earlier rows left (the scratch
    directory removed), so that no later row was processed. *)
Theorem non_string_link_aborts_run (a : args) (df : dataframe) (temp_dir : string)
  (before : list (gmap string value)) (row : gmap string value)
  (after : list (gmap string value)) (v : value) (counts : Z * Z) (st1 : state) :
  path_exists w (excel_file a) = true ->
  read_excel w (excel_file a) (sheet a) = Some df ->
  column a ∈ columns df ->
  mkdtemp w = Some temp_dir ->
  rows df = before ++ row :: after ->
  row !! column a = Some v ->
  isna v = false ->
  (forall s, v <> VStr s) ->
  process_rows w a df temp_dir before (0, 0) initial = (Ok counts, st1) ->
  process_row w a df temp_dir row counts st1 = (Raise AttributeError, st1) /\
  main w a initial = (Raise (SystemExit 1), remove_tree temp_dir st1) /\
  exit_status (fst (main w a initial)) = 1.
Proof.
  intros Hexists Hdf Hcol Htmp Hrows Hcell Hna Hstr Hbefore.
  assert (process_row w a df temp_dir row counts st1 = (Raise AttributeError, st1)) as Hrow.
  { unfold process_row. destruct counts as [successful failed].
    unfold bind, row_get. rewrite Hcell. unfold ret. rewrite Hna.
    destruct v; try reflexivity. now destruct (Hstr s). }
  assert (main w a initial = (Raise (SystemExit 1), remove_tree temp_dir st1)) as Hmain.
  { unfold main, try_except, bind, ret, raise, finally.
    rewrite Hexists, Hdf. cbn [negb].
    rewrite (bool_decide_eq_true_2 _ Hcol), Htmp. cbn [negb].
    rewrite Hrows, process_rows_app, Hbefore.
    cbn [process_rows]. unfold bind. now rewrite Hrow. }
  split; [exact Hrow|]. split; [exact Hmain|]. now rewrite Hmain.
Qed.

(** C7.  When the link column asked for is not a column of the sheet,
    the run exits with status 1 from its setup: the state is untouched,
    so that no row was processed and no network call was made. *)
Theorem missing_link_column_aborts (a : args) (df : dataframe) (st : state) :
  path_exists w (excel_file a) = true ->
  read_excel w (excel_file a) (sheet a) = Some df ->
  column a ∉ columns df ->
  main w a st = (Raise (SystemExit 1), st) /\
  exit_status (fst (main w a st)) = 1 /\
  trace (snd (main w a st)) = trace st.
Proof.
  intros Hexists Hdf Hcol.
  assert (main w a st = (Raise (SystemExit 1), st)) as Hmain.
  { unfold main, try_except, bind, ret, raise.
    rewrite Hexists, Hdf. cbn [negb].
    now rewrite (bool_decide_eq_false_2 _ Hcol). }
  now rewrite Hmain.
Qed.

End OrchestratorFacts.

(* ===================================================================== *)
(** * The theorems at work on the concrete worlds *)
(* ===================================================================== *)



(** Asking for the column [URL] of a sheet with the columns [Link] and
    [Name] ends the run at once. *)
Lemma missing_link_column_witness :
  Orchestrator.main Demo.friendly Demo.wrong_column_args World.initial
  = (Py.Raise (Py.SystemExit 1), World.initial) /\
  Orchestrator.exit_status
    (fst (Orchestrator.main Demo.friendly Demo.wrong_column_args World.initial)) = 1 /\
  World.trace (snd (Orchestrator.main Demo.friendly Demo.wrong_column_args World.initial))
  = World.trace World.initial.
Proof.
  apply (missing_link_column_aborts Demo.friendly Demo.wrong_column_args Demo.links_sheet
           World.initial eq_refl eq_refl).
  intros H. repeat (apply elem_of_cons in H as [H|H]; [discriminate|]).
  now apply elem_of_nil in H.
Defined.

(** The row whose link cell holds a space, a no-break space and an
    ideographic space is skipped. *)
Lemma blank_link_row_witness :
  Orchestrator.process_row Demo.friendly Demo.demo_args Demo.links_sheet "/tmp/tmpabc"
    Scenarios.no_break_row (1, 0) Demo.downloaded
  = (Py.Ok (1, 0), Demo.downloaded) /\
  (forall rest,
     Orchestrator.process_rows Demo.friendly Demo.demo_args Demo.links_sheet "/tmp/tmpabc"
       (Scenarios.no_break_row :: rest) (1, 0) Demo.downloaded
     = Orchestrator.process_rows Demo.friendly Demo.demo_args Demo.links_sheet "/tmp/tmpabc"
         rest (1, 0) Demo.downloaded) /\
  (forall s, PyStr.blank s = true <-> PyStr.truthy (PyStr.strip_ws s) = false).
Proof.
  apply (blank_link_row_skipped Demo.friendly Demo.demo_args Demo.links_sheet "/tmp/tmpabc"
           Scenarios.no_break_row (Py.VStr (" " +:+ PyStr.chr 160 +:+ PyStr.chr 12288))
           (1, 0) Demo.downloaded).
  - reflexivity.
  - right. eexists. split; reflexivity.
Defined.

(** The rows with three spaces and with a missing cell are skipped too. *)
Example spaces_row_skipped :
  Orchestrator.process_row Demo.friendly Demo.demo_args Demo.links_sheet "/tmp/tmpabc"
    Demo.blank_row (1, 0) Demo.downloaded
  = (Py.Ok (1, 0), Demo.downloaded).
Proof. reflexivity. Qed.

(** The number in the second link cell ends the run after the first row. *)
Lemma non_string_link_witness :
  Orchestrator.process_row Demo.friendly_numeric Demo.demo_args Demo.numeric_sheet
    "/tmp/tmpabc" Demo.number_row (1, 0)
    (snd (Orchestrator.process_rows Demo.friendly_numeric Demo.demo_args Demo.numeric_sheet
            "/tmp/tmpabc" [Demo.first_numeric_row] (0, 0) World.initial))
  = (Py.Raise Py.AttributeError,
     snd (Orchestrator.process_rows Demo.friendly_numeric Demo.demo_args Demo.numeric_sheet
            "/tmp/tmpabc" [Demo.first_numeric_row] (0, 0) World.initial))
  /\
  Orchestrator.main Demo.friendly_numeric Demo.demo_args World.initial
  = (Py.Raise (Py.SystemExit 1),
     Orchestrator.remove_tree "/tmp/tmpabc"
       (snd (Orchestrator.process_rows Demo.friendly_numeric Demo.demo_args
               Demo.numeric_sheet "/tmp/tmpabc" [Demo.first_numeric_row] (0, 0)
               World.initial)))
  /\
  Orchestrator.exit_status
    (fst (Orchestrator.main Demo.friendly_numeric Demo.demo_args World.initial)) = 1.
Proof.
  apply (non_string_link_aborts_run Demo.friendly_numeric Demo.demo_args Demo.numeric_sheet
           "/tmp/tmpabc" [Demo.first_numeric_row] Demo.number_row [Demo.last_numeric_row]
           (Py.VInt 42) (1, 0)).
  - reflexivity.
  - reflexivity.
  - vm_compute. left.
  - reflexivity.
  - reflexivity.
  - reflexivity.
  - reflexivity.
  - intros s. discriminate.
  - vm_compute. reflexivity.
Defined.

(** The record of the first row of the friendly run holds the sharing
    link of the cell, and the download went to the direct link. *)
Lemma source_url_is_raw_link_witness :
  exists df row u url,
    World.read_excel Demo.friendly (Orchestrator.excel_file Demo.demo_args)
      (Orchestrator.sheet Demo.demo_args) = Some df /\
    row ∈ World.rows df /\
    row !! Orchestrator.column Demo.demo_args = Some (Py.VStr u) /\
    World.md_source_url
      (World.rec_metadata
         (Ingestor.record_of Demo.friendly "u" "uc.pdf" "%PDF-1.4" "2025-01-01T00:00:00"
            (Some Demo.report_metadata))) = Py.VStr u /\
    Resolver.resolve u = Py.Ok url /\
    url ∈ World.fetched_urls
            (World.trace (snd (Orchestrator.main Demo.friendly Demo.demo_args World.initial))).
Proof.
  apply (proj2 (source_url_is_raw_link Demo.friendly Demo.demo_args)).
  vm_compute. left.
Defined.

Example friendly_run_sources :
  map (fun r => World.md_source_url (World.rec_metadata r))
      (World.catalog_records
         (World.trace (snd (Orchestrator.main Demo.friendly Demo.demo_args World.initial))))
  = [Py.VStr "https://drive.google.com/file/d/1AbC/view?usp=sharing";
     Py.VStr "https://example.com/docs/notes.docx?v=2"]
  /\
  World.fetched_urls
    (World.trace (snd (Orchestrator.main Demo.friendly Demo.demo_args World.initial)))
  = ["https://drive.google.com/uc?export=download&id=1AbC";
     "https://example.com/docs/notes.docx?v=2"]
  /\
  fst (Orchestrator.main Demo.friendly Demo.demo_args World.initial) = Py.Ok (2, 0).
Proof. repeat split; vm_compute; reflexivity. Qed.

Example numeric_run_stops :
  World.fetched_urls
    (World.trace (snd (Orchestrator.main Demo.friendly_numeric Demo.demo_args World.initial)))
  = ["https://example.com/a.pdf"]
  /\
  length (World.catalog_records
            (World.trace (snd (Orchestrator.main Demo.friendly_numeric Demo.demo_args
                                 World.initial)))) = 1%nat.
Proof. split; vm_compute; reflexivity. Qed.


(* ===================================================================== *)
(** * More about the string operations: last pieces *)
(* ===================================================================== *)

Section LastPieceFacts.

Import Py PyStr.

#[local] Arguments String.append !_ _ / : simpl nomatch.

Lemma append_nil_r (s : string) : s +:+ EmptyString = s.
Proof. induction s as [|c s IH]; [reflexivity|]. change (String c (s +:+ "") = String c s). now rewrite IH. Qed.

Lemma split_nonempty (sep s : string) : sep <> EmptyString -> split sep s <> [].
Proof.
  intros Hsep. rewrite split_unfold by assumption.
  now destruct (partition sep s) as [[p r]|].
Qed.

Lemma index_last_cons {A} (x : A) (l : list A) :
  l <> [] -> index_last (x :: l) = index_last l.
Proof.
  intros Hl. unfold index_last. cbn [rev].
  destruct (rev l) as [|y r] eqn:E.
  - apply (f_equal (@rev A)) in E. rewrite rev_involutive in E. now destruct Hl.
  - reflexivity.
Qed.

Lemma after_last_append_sep (c : ascii) (p r : string) :
  after_last c (p +:+ String c r) = Some (default r (after_last c r)).
Proof.
  induction p as [|a p IH]; simpl.
  - rewrite Ascii.eqb_refl. now destruct (after_last c r).
  - now rewrite IH.
Qed.

Lemma partition_char_none (c : ascii) (s : string) :
  partition (String c EmptyString) s = None -> after_last c s = None.
Proof.
  induction s as [|a s IH]; [reflexivity|].
  rewrite partition_char. cbn [after_last]. rewrite (Ascii.eqb_sym a c).
  destruct (Ascii.eqb c a); [discriminate|].
  destruct (partition (String c EmptyString) s) as [[p r]|]; [discriminate|].
  intros _. now rewrite IH.
Qed.

Lemma split_last_char_fuel (c : ascii) (n : nat) (s : string) :
  (String.length s < n)%nat ->
  index_last (split (String c EmptyString) s) = Ok (default s (after_last c s)).
Proof.
  revert s; induction n as [|n IH]; intros s Hn; [lia|].
  rewrite split_unfold by discriminate.
  destruct (partition (String c EmptyString) s) as [[p r]|] eqn:E.
  - rewrite index_last_cons by (apply split_nonempty; discriminate).
    pose proof (partition_length _ _ _ _ E) as Hlen. simpl in Hlen.
    rewrite IH by lia.
    apply partition_sound in E. rewrite E. simpl.
    now rewrite after_last_append_sep.
  - now rewrite (partition_char_none c s E).
Qed.

Lemma split_last_char (c : ascii) (s : string) :
  index_last (split (String c EmptyString) s) = Ok (default s (after_last c s)).
Proof. apply (split_last_char_fuel c (S (String.length s))). lia. Qed.

Lemma mem_before_same (c : ascii) (s : string) : mem c (before c s) = false.
Proof.
  induction s as [|a s IH]; [reflexivity|]. cbn [before].
  destruct (Ascii.eqb a c) eqn:E; [reflexivity|].
  cbn [mem]. now rewrite Ascii.eqb_sym, E, IH.
Qed.

Lemma mem_before_other (c d : ascii) (s : string) :
  mem c s = false -> mem c (before d s) = false.
Proof.
  induction s as [|a s IH]; [reflexivity|]. cbn [mem before]. intros H.
  apply orb_false_iff in H as [H1 H2].
  destruct (Ascii.eqb a d); [reflexivity|]. cbn [mem]. now rewrite H1, IH.
Qed.

Lemma after_last_append_clean (c : ascii) (a b : string) :
  mem c b = false ->
  after_last c (a +:+ b) = option_map (fun r => r +:+ b) (after_last c a).
Proof.
  intros Hb. induction a as [|x a IH]; simpl.
  - induction b as [|y b IHb]; [reflexivity|].
    cbn [mem] in Hb. apply orb_false_iff in Hb as [H1 H2].
    cbn [after_last]. rewrite (IHb H2), Ascii.eqb_sym, H1. reflexivity.
  - rewrite IH. destruct (after_last c a); [reflexivity|].
    simpl. now destruct (Ascii.eqb x c).
Qed.

End LastPieceFacts.

(* ===================================================================== *)
(** * More about the fetcher: filenames and files *)
(* ===================================================================== *)

Section FetcherLedger.

Import Py World Fetcher Ledger PyStr.

Lemma filename_from_url_eq (w : world) (url : string) (headers : list (string * string)) :
  filename_from_url w url headers = Ok (url_filename w url headers).
Proof.
  unfold filename_from_url, url_filename, last_segment, guessed_extension.
  rewrite split_last_char. cbn [bind_result].
  rewrite split_index_0 by discriminate. cbn [bind_result].
  rewrite first_piece_char.
  destruct (contains "." (before "?" (default url (after_last "/" url)))); cbn [negb];
    [reflexivity|].
  destruct (guess_extension w _) as [ext|]; [destruct (truthy ext)|];
    now rewrite ?append_nil_r.
Qed.

(** X5.  Choosing the filename of a download never fails.  When the
    [Content-Disposition] header holds [filename=], the filename is the
    text after its first [filename=] (up to a second one), stripped of
    quotes at both ends; otherwise it is the last segment of the URL up
    to the first ['?'], with the extension guessed from the content type
    added when that has no ['.']. *)
Theorem filename_never_fails (w : world) (url : string) (headers : list (string * string)) :
  exists filename,
    choose_filename w url headers = Ok filename /\
    (names_file headers = false -> filename = url_filename w url headers) /\
    (names_file headers = true ->
     exists cd pre rest,
       header_get "Content-Disposition" headers = Some cd /\
       cd = pre +:+ "filename=" +:+ rest /\
       (forall pre' rest', cd = pre' +:+ "filename=" +:+ rest' ->
                           (String.length pre <= String.length pre')%nat) /\
       filename = strip quote_chars (first_piece "filename=" rest)).
Proof.
  unfold choose_filename, names_file.
  destruct (header_get "Content-Disposition" headers) as [cd|].
  2: { eexists. split; [apply filename_from_url_eq|]. split; [reflexivity | discriminate]. }
  destruct (truthy cd && contains "filename=" cd) eqn:Hcd.
  2: { eexists. split; [apply filename_from_url_eq|]. split; [reflexivity | discriminate]. }
  apply andb_true_iff in Hcd as [_ Hc]. unfold contains in Hc.
  destruct (partition "filename=" cd) as [[pre rest]|] eqn:Hp; [|discriminate].
  rewrite (split_index_1 "filename=" cd pre rest) by (assumption || discriminate).
  cbn [bind_result]. eexists. split; [reflexivity|]. split; [discriminate|].
  intros _. exists cd, pre, rest. split; [reflexivity|].
  split; [now apply partition_sound|]. split; [|reflexivity].
  intros pre' rest'. now apply partition_first with (rest := rest).
Qed.

(** X6.  A file fetched through a [drive.google.com/file/d/] sharing
    link, when the answer names no file, is called [uc] followed by the
    extension guessed from the content type, whatever its identifier:
    the filename is read off the rewritten link. *)
Theorem drive_file_is_named_uc (w : world) (url : string) (headers : list (string * string)) :
  contains "drive.google.com/file/d/" url = true ->
  names_file headers = false ->
  exists url',
    Resolver.resolve url = Ok url' /\
    choose_filename w url' headers = Ok ("uc" +:+ guessed_extension w headers).
Proof.
  intros Hc Hn.
  destruct (contains_suffix "drive.google.com" "/file/d/" url Hc) as [pre [rest Hp]].
  eexists. split; [now apply resolve_file_d with (pre := pre) (rest := rest)|].
  assert (choose_filename w
            (Resolver.direct_download (before "?" (before "/" rest))) headers
          = filename_from_url w
              (Resolver.direct_download (before "?" (before "/" rest))) headers) as ->.
  { unfold choose_filename. unfold names_file in Hn.
    destruct (header_get "Content-Disposition" headers) as [cd|]; [|reflexivity].
    now rewrite Hn. }
  rewrite filename_from_url_eq. f_equal.
  unfold url_filename, last_segment, Resolver.direct_download.
  rewrite after_last_append_clean
    by (apply mem_before_other, mem_before_same).
  reflexivity.
Qed.

End FetcherLedger.

Section DownloadLedger.

Import Py World Fetcher Ledger Ingestor.

Lemma set_files_same (st : state) : set_files (files st) st = st.
Proof. now destruct st. Qed.

Lemma write_chunks_exact (path : string) (chunks : list string) (st : state) (c : string) :
  files st !! path = Some c ->
  write_chunks path chunks st
  = (Ok tt, set_files (<[path := c +:+ join_chunks chunks]> (files st)) st).
Proof.
  revert st c; induction chunks as [|chunk chunks IH]; intros st c Hc.
  - cbn [write_chunks join_chunks]. rewrite append_nil_r, insert_id by exact Hc.
    now rewrite set_files_same.
  - cbn [write_chunks join_chunks]. unfold bind, write_chunk. rewrite Hc. cbn [default from_option id].
    simpl.
    erewrite IH.
    2: { cbn [files set_files]. apply lookup_insert_eq. }
    cbn [files set_files]. rewrite insert_insert_eq, append_assoc.
    now destruct st.
Qed.

Lemma download_file_eq (w : world) (url temp_dir url' : string) (st : state) :
  Resolver.resolve url = Ok url' ->
  download_file w url temp_dir st =
  let st1 := log_call (EvGet url') st in
  match requests_get w (n_net st) url' with
  | None => (Ok None, st1)
  | Some resp =>
      if (400 <=? g_status resp) && (g_status resp <? 600) then (Ok None, st1)
      else
        match choose_filename w url' (g_headers resp) with
        | Raise _ => (Ok None, st1)
        | Ok filename =>
            let path := path_join temp_dir filename in
            if content_length_ok w (g_headers resp) then
              if writable w path then
                let st2 := set_files (<[path := join_chunks (g_chunks resp)]> (files st)) st1 in
                if g_broken resp then (Ok None, st2)
                else (Ok (Some (path, filename)), st2)
              else (Ok None, st1)
            else (Ok None, st1)
        end
  end.
Proof.
  intros Hres.
  destruct st as [tr nu nc nn fs].
  cbv [download_file try_except bind lift get ret raise open_wb content_length_ok
       files n_net n_clock n_uuid trace log_call set_files].
  rewrite Hres. cbv beta iota zeta.
  split_on (requests_get w nn url').
  match goal with |- context [(400 <=? ?a) && (?b <? 600)] =>
    split_on ((400 <=? a) && (b <? 600)) end.
  match goal with |- context [choose_filename w ?u ?h] => split_on (choose_filename w u h) end.
  2: { now erewrite choose_filename_raises by eassumption. }
  match goal with |- context [header_get "content-length" ?h] =>
    split_on (header_get "content-length" h) end.
  - match goal with |- context [int_of_str w ?v] => split_on (int_of_str w v) end.
    match goal with |- context [writable w ?p] => split_on (writable w p) end.
    match goal with |- context [write_chunks ?p ?c ?s] =>
      rewrite (write_chunks_exact p c s EmptyString) by apply lookup_insert_eq end.
    cbv beta iota zeta. cbn [files set_files]. rewrite insert_insert_eq.
    match goal with |- context [g_broken ?r] => split_on (g_broken r) end.
  - match goal with |- context [writable w ?p] => split_on (writable w p) end.
    match goal with |- context [write_chunks ?p ?c ?s] =>
      rewrite (write_chunks_exact p c s EmptyString) by apply lookup_insert_eq end.
    cbv beta iota zeta. cbn [files set_files]. rewrite insert_insert_eq.
    match goal with |- context [g_broken ?r] => split_on (g_broken r) end.
Qed.


(** Inversion of a successful download. *)
Lemma download_file_success (w : world) (url temp_dir : string) (st : state)
  (path filename : string) :
  fst (download_file w url temp_dir st) = Ok (Some (path, filename)) ->
  exists url' resp,
    Resolver.resolve url = Ok url' /\
    requests_get w (n_net st) url' = Some resp /\
    choose_filename w url' (g_headers resp) = Ok filename /\
    path = path_join temp_dir filename /\
    g_broken resp = false /\
    snd (download_file w url temp_dir st)
    = set_files (<[path := join_chunks (g_chunks resp)]> (files st))
                (log_call (EvGet url') st).
Proof.
  destruct (resolve_total url) as [url' Hres].
  rewrite (download_file_eq w url temp_dir url' st Hres). cbv zeta.
  destruct (requests_get w (n_net st) url') as [resp|] eqn:Hget; [|discriminate].
  destruct ((400 <=? g_status resp) && (g_status resp <? 600)); [discriminate|].
  destruct (choose_filename w url' (g_headers resp)) as [fn|e] eqn:Hfn; [|discriminate].
  destruct (content_length_ok w (g_headers resp)); [|discriminate].
  destruct (writable w (path_join temp_dir fn)); [|discriminate].
  destruct (g_broken resp) eqn:Hb; [discriminate|].
  cbn [fst snd]. intros H. injection H as <- <-.
  exists url', resp. repeat split; assumption || reflexivity.
Qed.

(** X2.  A download that returns a path and a filename has stored,
    under that path (the scratch directory joined with the filename
    chosen for the resolved link), exactly the chunks of the answer, one
    after the other: reading the file back under that path gives these
    bytes, and its size is their number. *)
Theorem downloaded_file_holds_body (w : world) (url temp_dir : string) (st : state)
  (path filename : string) :
  fst (download_file w url temp_dir st) = Ok (Some (path, filename)) ->
  exists url' resp,
    Resolver.resolve url = Ok url' /\
    requests_get w (n_net st) url' = Some resp /\
    choose_filename w url' (g_headers resp) = Ok filename /\
    path = path_join temp_dir filename /\
    files (snd (download_file w url temp_dir st)) !! path
    = Some (join_chunks (g_chunks resp)) /\
    fst (read_file path (snd (download_file w url temp_dir st)))
    = Ok (join_chunks (g_chunks resp)) /\
    fst (getsize path (snd (download_file w url temp_dir st)))
    = Ok (Z.of_nat (String.length (join_chunks (g_chunks resp)))).
Proof.
  intros H.
  destruct (download_file_success w url temp_dir st path filename H)
    as [url' [resp [Hres [Hget [Hfn [Hpath [_ Hst]]]]]]].
  exists url', resp. rewrite Hst. unfold read_file, getsize. cbn [files set_files].
  rewrite lookup_insert_eq. repeat split; assumption || reflexivity.
Qed.

(** X3.  A download whose stream breaks after some chunks returns [None],
    but the file it had opened stays in the scratch directory with the
    chunks received so far. *)
Theorem broken_download_keeps_partial_file (w : world) (url temp_dir url' : string)
  (st : state) (resp : get_response) (filename : string) :
  Resolver.resolve url = Ok url' ->
  requests_get w (n_net st) url' = Some resp ->
  (400 <=? g_status resp) && (g_status resp <? 600) = false ->
  choose_filename w url' (g_headers resp) = Ok filename ->
  content_length_ok w (g_headers resp) = true ->
  writable w (path_join temp_dir filename) = true ->
  g_broken resp = true ->
  fst (download_file w url temp_dir st) = Ok None /\
  files (snd (download_file w url temp_dir st)) !! path_join temp_dir filename
  = Some (join_chunks (g_chunks resp)).
Proof.
  intros Hres Hget Hstatus Hfn Hlen Hw Hb.
  rewrite (download_file_eq w url temp_dir url' st Hres). cbv zeta.
  rewrite Hget, Hstatus, Hfn, Hlen, Hw, Hb. cbn [fst snd files set_files].
  split; [reflexivity | apply lookup_insert_eq].
Qed.

(** X4.  Download, then ingestion: the ingestion of a downloaded file
    always reaches the storage upload; the bytes it posts are the bytes
    downloaded, and the URL it hands to [requests.post] is the text
    [SUPABASE_URL/storage/v1/object/documents/{id}/{filename}], with the
    identifier drawn for it and the filename of the download pasted in
    as they are; the record that may follow holds that identifier, that
    filename and the number of these bytes as size. *)
Theorem uploaded_bytes_are_downloaded (w : world) (url temp_dir : string) (st : state)
  (path filename : string) (metadata : option (gmap string value)) :
  fst (download_file w url temp_dir st) = Ok (Some (path, filename)) ->
  exists url' resp rest,
    Resolver.resolve url = Ok url' /\
    requests_get w (n_net st) url' = Some resp /\
    trace (snd (upload_to_supabase w path filename metadata
                  (snd (download_file w url temp_dir st))))
    = trace st ++
      EvGet url' ::
      EvPost (SUPABASE_URL w +:+ "/storage/v1/object/documents/" +:+
              uuid4 w (n_uuid st) +:+ "/" +:+ filename)
             (upload_headers w (content_type_of w filename))
             (BData (join_chunks (g_chunks resp))) :: rest /\
    (rest = [] \/
     exists record,
       rest = [EvPost (SUPABASE_URL w +:+ "/rest/v1/documents") (insert_headers w)
                 (BJson record)] /\
       rec_id record = uuid4 w (n_uuid st) /\
       rec_filename record = filename /\
       rec_filesize record = Z.of_nat (String.length (join_chunks (g_chunks resp)))).
Proof.
  intros H.
  destruct (download_file_success w url temp_dir st path filename H)
    as [url' [resp [Hres [Hget [Hfn [Hpath [_ Hst]]]]]]].
  exists url', resp. rewrite Hst, upload_to_supabase_run. cbv zeta.
  cbn [files set_files n_uuid n_net n_clock log_call]. rewrite lookup_insert_eq.
  destruct (requests_post w (S (n_net st)) _ _ (BData _)) as [r1|].
  2: { exists []. repeat split; try assumption; [|now left].
       cbn [snd trace log_call bump_uuid set_files]. now rewrite <- app_assoc. }
  destruct (storage_accepted r1).
  2: { exists []. repeat split; try assumption; [|now left].
       cbn [snd trace log_call bump_uuid set_files]. now rewrite <- app_assoc. }
  eexists [EvPost _ _ (BJson _)].
  split; [assumption|]. split; [assumption|]. split.
  - destruct (requests_post w (S (S (n_net st))) _ _ _) as [r2|];
      [destruct (catalog_accepted r2)|];
      cbn [snd trace log_call bump_uuid bump_clock set_files];
      now rewrite <- !app_assoc.
  - right. eexists. split; [reflexivity|]. repeat split.
Qed.

End DownloadLedger.

(* ===================================================================== *)
(** * More about the ingestor and the metadata *)
(* ===================================================================== *)

Section IngestorLedger.

Import Py World Ingestor Orchestrator Ledger.

(** X7.  After an accepted storage upload, the ingestor returns the
    identifier exactly when the catalog answers with status 201 and a
    true body, and [None] otherwise; in both cases the catalog call is
    its last call: a refused insert is followed by no retry and by no
    removal of the stored object. *)
Theorem catalog_insert_accepted (w : world) (file_path filename : string)
  (metadata : option (gmap string value)) (st : state) (content : string)
  (resp resp' : response) :
  files st !! file_path = Some content ->
  requests_post w (n_net st)
    (storage_url w "documents" (uuid4 w (n_uuid st) +:+ "/" +:+ filename))
    (upload_headers w (content_type_of w filename)) (BData content) = Some resp ->
  storage_accepted resp = true ->
  requests_post w (S (n_net st)) (catalog_url w "documents") (insert_headers w)
    (BJson (record_of w (uuid4 w (n_uuid st)) filename content
              (now_isoformat w (n_clock st)) metadata)) = Some resp' ->
  (catalog_accepted resp' = true <->
   status_code resp' = 201 /\ exists j, decoded resp' = Some j /\ json_truthy j = true)
  /\
  fst (upload_to_supabase w file_path filename metadata st)
  = (if catalog_accepted resp' then Ok (Some (uuid4 w (n_uuid st))) else Ok None)
  /\
  trace (snd (upload_to_supabase w file_path filename metadata st))
  = trace st ++
    [storage_call w (uuid4 w (n_uuid st)) filename content;
     catalog_call w (record_of w (uuid4 w (n_uuid st)) filename content
                       (now_isoformat w (n_clock st)) metadata)].
Proof.
  intros Hfile Hpost Hacc Hpost'. split.
  - unfold catalog_accepted. split.
    + intros H. apply andb_true_iff in H as [Hs H]. apply Z.eqb_eq in Hs.
      split; [assumption|]. destruct (decoded resp') as [j|]; [|discriminate].
      now exists j.
    + intros [Hs [j [Hd Hj]]]. now rewrite Hs, Hd, Hj.
  - rewrite upload_to_supabase_run. cbv zeta. rewrite Hfile, Hpost, Hacc, Hpost'.
    destruct (catalog_accepted resp');
      (split; [reflexivity|]; cbn [snd trace log_call bump_clock bump_uuid];
       now rewrite <- app_assoc).
Qed.

Lemma record_of_type_ignored (w : world) (id filename content now : string)
  (m : gmap string value) (v : value) :
  m <> ∅ ->
  record_of w id filename content now (Some (<["type" := v]> m))
  = record_of w id filename content now (Some m).
Proof.
  intros Hm. unfold record_of. f_equal.
  rewrite !build_metadata_supplied by (assumption || apply insert_non_empty).
  now rewrite !lookup_insert_ne by discriminate.
Qed.

(** X8.  The ['type'] entry of the metadata has no effect on an
    ingestion: result, calls and record are the same with and without
    it (the stored type comes from the filename alone). *)
Theorem type_entry_is_ignored (w : world) (file_path filename : string)
  (m : gmap string value) (v : value) (st : state) :
  m <> ∅ ->
  upload_to_supabase w file_path filename (Some (<["type" := v]> m)) st
  = upload_to_supabase w file_path filename (Some m) st.
Proof.
  intros Hm. rewrite !upload_to_supabase_run. cbv zeta.
  destruct (files st !! file_path) as [content|]; [|reflexivity].
  now rewrite record_of_type_ignored.
Qed.

(** X9.  The metadata gathered for a row, entry by entry: ['url'] is
    the link cell; ['name'], ['author'] and ['type'] are the cells of
    the columns bound on the command line, and are absent when the
    option is missing, empty or names no column of the sheet; ['date']
    is present only for a datetime or string cell and is then always a
    string, the ISO form or, for a string that does not parse, the
    string itself; the empty cell of a column of dates ([pd.NaT]) counts
    as a datetime and gives the string ['NaT'], while the empty cell of
    another column ([nan]) gives no ['date']; there is no other entry,
    and gathering has no effect on the state. *)
Theorem gathered_metadata_entries (w : world) (a : args) (df : dataframe)
  (row : gmap string value) (url : value) (st : state) (m : gmap string value)
  (st' : state) :
  gather_metadata w a df row url st = (Ok m, st') ->
  st' = st /\
  m !! "url" = Some url /\
  m !! "name" = cell_of df row (name_column a) /\
  m !! "author" = cell_of df row (author_column a) /\
  m !! "type" = cell_of df row (type_column a) /\
  m !! "date" =
    match cell_of df row (date_column a) with
    | Some (VDatetime iso) => Some (VStr iso)
    | Some VNaT => Some (VStr "NaT")
    | Some (VStr s) => Some (VStr (default s (to_datetime w s)))
    | _ => None
    end /\
  (forall k, k ∉ ["url"; "name"; "author"; "date"; "type"] -> m !! k = None).
Proof.
  unfold gather_metadata, bind, row_get, ret, raise, cell_of.
  destruct (bound (name_column a) df) as [c1|];
    [destruct (row !! c1) as [v1|]; [|discriminate]|];
  (destruct (bound (author_column a) df) as [c2|];
    [destruct (row !! c2) as [v2|]; [|discriminate]|]);
  (destruct (bound (date_column a) df) as [c3|];
    [destruct (row !! c3) as [v3|]; [|discriminate];
     destruct v3 as [| |s| | | |iso|]; try destruct (to_datetime w s)|]);
  (destruct (bound (type_column a) df) as [c4|];
    [destruct (row !! c4) as [v4|]; [|discriminate]|]);
  intros H; injection H as <- <-;
  (split; [reflexivity|]);
  repeat (split; [now simplify_map_eq|]);
  intros k Hk;
  repeat (rewrite lookup_insert_ne by (intros <-; apply Hk; set_solver));
  (apply lookup_singleton_ne || apply lookup_empty); intros <-; apply Hk; set_solver.
Qed.

End IngestorLedger.

(* ===================================================================== *)
(** * More about the orchestrator: the ledger of a run *)
(* ===================================================================== *)

Section RunLedger.

Import Py World Ingestor Orchestrator Ledger.

Variable w : world.

Lemma uploaded_payloads_app (tr1 tr2 : list event) :
  uploaded_payloads (tr1 ++ tr2) = uploaded_payloads tr1 ++ uploaded_payloads tr2.
Proof.
  induction tr1 as [|ev tr1 IH]; [reflexivity|].
  destruct ev as [url|url hdrs [content|record]]; simpl; now rewrite IH.
Qed.

(** What one ingestion adds to the ledger. *)
Lemma upload_to_supabase_ledger (file_path filename : string)
  (metadata : option (gmap string value)) (st : state) :
  exists r st' new,
    upload_to_supabase w file_path filename metadata st = (Ok r, st') /\
    trace st' = trace st ++ new /\
    fetched_urls new = [] /\
    (length (catalog_records new) <= length (uploaded_payloads new) <= 1)%nat /\
    (r <> None -> length (catalog_records new) = 1%nat).
Proof.
  rewrite upload_to_supabase_run. cbv zeta.
  destruct (files st !! file_path) as [content|].
  2: { exists None, (bump_uuid st), []. rewrite app_nil_r.
       repeat split; simpl; try lia. congruence. }
  destruct (requests_post w (n_net st) _ _ (BData content)) as [resp|].
  2: { eexists None, _, [_]. split; [reflexivity|].
       repeat split; simpl; try lia. congruence. }
  destruct (storage_accepted resp).
  2: { eexists None, _, [_]. split; [reflexivity|].
       repeat split; simpl; try lia. congruence. }
  destruct (requests_post w (S (n_net st)) _ _ _) as [resp'|];
    [destruct (catalog_accepted resp')|];
    (eexists _, _, [_; _]; split; [reflexivity|];
     split; [cbn [trace log_call bump_clock bump_uuid]; now rewrite <- app_assoc|];
     repeat split; simpl; lia).
Qed.

Lemma row_fetch_link (a : args) (row : gmap string value) (u url : string) :
  row !! column a = Some (VStr u) ->
  PyStr.truthy (PyStr.strip_ws u) = true ->
  Resolver.resolve u = Ok url ->
  link_text a row = Some u /\ row_fetch a row = [url].
Proof.
  intros Hcell Hu Hres. unfold row_fetch, link_text, resolved.
  now rewrite Hcell, Hu, Hres.
Qed.

(** One turn of the loop, in full: how it ends, what it fetched, and
    which counter it moved. *)
Lemma process_row_outcome (a : args) (df : dataframe) (temp_dir : string)
  (row : gmap string value) (s f : Z) (st : state) :
  exists r st' new,
    process_row w a df temp_dir row (s, f) st = (r, st') /\
    trace st' = trace st ++ new /\
    match r with
    | Raise e => is_Exception e = true /\ new = []
    | Ok (s', f') =>
        fetched_urls new = row_fetch a row /\
        (length (catalog_records new) <= length (uploaded_payloads new)
         <= length (fetched_urls new))%nat /\
        s' + f' = s + f + Z.of_nat (length (row_fetch a row)) /\
        s <= s' <= s + Z.of_nat (length (catalog_records new)) /\ f <= f'
    end.
Proof.
  assert (forall e, is_Exception e = true ->
            exists r st' new,
              (Raise e, st) = (r : result (Z * Z), st') /\ trace st' = trace st ++ new /\
              match r with
              | Raise e => is_Exception e = true /\ new = []
              | Ok (s', f') =>
                  fetched_urls new = row_fetch a row /\
                  (length (catalog_records new) <= length (uploaded_payloads new)
                   <= length (fetched_urls new))%nat /\
                  s' + f' = s + f + Z.of_nat (length (row_fetch a row)) /\
                  s <= s' <= s + Z.of_nat (length (catalog_records new)) /\ f <= f'
              end) as Hraise.
  { intros e He. exists (Raise e), st, []. rewrite app_nil_r. now repeat split. }
  assert (link_text a row = None ->
            exists r st' new,
              (Ok (s, f), st) = (r : result (Z * Z), st') /\ trace st' = trace st ++ new /\
              match r with
              | Raise e => is_Exception e = true /\ new = []
              | Ok (s', f') =>
                  fetched_urls new = row_fetch a row /\
                  (length (catalog_records new) <= length (uploaded_payloads new)
                   <= length (fetched_urls new))%nat /\
                  s' + f' = s + f + Z.of_nat (length (row_fetch a row)) /\
                  s <= s' <= s + Z.of_nat (length (catalog_records new)) /\ f <= f'
              end) as Hskip.
  { intros Hl. exists (Ok (s, f)), st, []. rewrite app_nil_r.
    unfold row_fetch. rewrite Hl. repeat split; simpl; lia. }
  unfold process_row. unfold bind at 1. unfold row_get.
  destruct (row !! column a) as [v|] eqn:Hcell; [|now apply Hraise]. unfold ret at 1.
  destruct (isna v) eqn:Hna.
  { apply Hskip. unfold link_text. rewrite Hcell. now destruct v. }
  destruct v as [| |u| | | | |]; try (now apply Hraise).
  destruct (PyStr.truthy (PyStr.strip_ws u)) eqn:Hu; cbn [negb].
  2: { apply Hskip. unfold link_text. now rewrite Hcell, Hu. }
  unfold bind at 1.
  destruct (gather_metadata_run w a df row (VStr u) st) as [[m [-> Hm]]| ->];
    [|now apply Hraise].
  unfold bind at 1.
  destruct (download_file_run w u temp_dir st)
    as [dl [st1 [url [-> [Hres [Htr [Hnu [_ _]]]]]]]].
  destruct (row_fetch_link a row u url Hcell Hu Hres) as [Hlink Hfetch].
  assert (exists r st' new,
            (Ok (s, f + 1), st1) = (r : result (Z * Z), st') /\
            trace st' = trace st ++ new /\
            match r with
            | Raise e => is_Exception e = true /\ new = []
            | Ok (s', f') =>
                fetched_urls new = row_fetch a row /\
                (length (catalog_records new) <= length (uploaded_payloads new)
                 <= length (fetched_urls new))%nat /\
                s' + f' = s + f + Z.of_nat (length (row_fetch a row)) /\
                s <= s' <= s + Z.of_nat (length (catalog_records new)) /\ f <= f'
            end) as Hfailed.
  { exists (Ok (s, f + 1)), st1, [EvGet url]. rewrite Hfetch.
    repeat split; simpl; try assumption; lia. }
  destruct dl as [[temp_file_path filename]|]; [|exact Hfailed].
  destruct (negb (PyStr.truthy temp_file_path)); [exact Hfailed|].
  unfold bind.
  destruct (upload_to_supabase_ledger temp_file_path filename (Some m) st1)
    as [id [st2 [new [-> [Htr2 [Hf [Hlen Hsome]]]]]]].
  assert (trace st2 = trace st ++ EvGet url :: new) as Htr3.
  { rewrite Htr2, Htr, <- app_assoc. reflexivity. }
  assert (fetched_urls (EvGet url :: new) = row_fetch a row) as Hf3.
  { cbn [fetched_urls]. now rewrite Hf, Hfetch. }
  assert (catalog_records (EvGet url :: new) = catalog_records new) as Hc3 by reflexivity.
  assert (uploaded_payloads (EvGet url :: new) = uploaded_payloads new) as Hp3 by reflexivity.
  destruct id as [id|]; [destruct (PyStr.truthy id)|]; unfold ret;
    (eexists _, st2, (EvGet url :: new); split; [reflexivity|]; split; [exact Htr3|];
     rewrite Hf3, Hc3, Hp3, Hfetch; cbn [length];
     try (assert (length (catalog_records new) = 1%nat) by (apply Hsome; congruence));
     repeat split; lia).
Qed.

(** The loop: when it ends normally, it fetched the links of the rows
    it did not skip, in order, and each of them moved one counter. *)
Lemma process_rows_ledger (a : args) (df : dataframe) (temp_dir : string)
  (rs : list (gmap string value)) (s f : Z) (st : state) :
  exists r st' new,
    process_rows w a df temp_dir rs (s, f) st = (r, st') /\
    trace st' = trace st ++ new /\
    match r with
    | Raise e => is_Exception e = true
    | Ok (s', f') =>
        fetched_urls new = expected_fetches a rs /\
        (length (catalog_records new) <= length (uploaded_payloads new)
         <= length (fetched_urls new))%nat /\
        s' + f' = s + f + Z.of_nat (length (expected_fetches a rs)) /\
        s <= s' <= s + Z.of_nat (length (catalog_records new)) /\ f <= f'
    end.
Proof.
  revert s f st; induction rs as [|row rs IH]; intros s f st.
  - exists (Ok (s, f)), st, []. rewrite app_nil_r. repeat split; simpl; lia.
  - cbn [process_rows]. unfold bind.
    destruct (process_row_outcome a df temp_dir row s f st)
      as [r [st1 [new1 [-> [Htr1 Hr]]]]].
    destruct r as [[s1 f1]|e].
    2: { exists (Raise e), st1, new1. now repeat split. }
    destruct (IH s1 f1 st1) as [r [st2 [new2 [-> [Htr2 Hr2]]]]].
    exists r, st2, (new1 ++ new2). split; [reflexivity|].
    split; [now rewrite Htr2, Htr1, app_assoc|].
    destruct r as [[s2 f2]|e]; [|exact Hr2].
    destruct Hr as [Hf1 [Hl1 [Hsum1 [Hs1 Hf1']]]].
    destruct Hr2 as [Hf2 [Hl2 [Hsum2 [Hs2 Hf2']]]].
    rewrite fetched_urls_app, catalog_records_app, uploaded_payloads_app.
    cbn [expected_fetches]. rewrite Hf1, Hf2, !length_app.
    rewrite Hf1 in Hl1. rewrite Hf2 in Hl2.
    repeat split; lia.
Qed.

(** The run, when it ends normally. *)
Lemma main_ledger (a : args) (s f : Z) :
  fst (main w a initial) = Ok (s, f) ->
  exists df,
    read_excel w (excel_file a) (sheet a) = Some df /\
    column a ∈ columns df /\
    fetched_urls (trace (snd (main w a initial))) = expected_fetches a (rows df) /\
    (length (catalog_records (trace (snd (main w a initial))))
     <= length (uploaded_payloads (trace (snd (main w a initial))))
     <= length (fetched_urls (trace (snd (main w a initial)))))%nat /\
    s + f = Z.of_nat (length (expected_fetches a (rows df))) /\
    0 <= s <= Z.of_nat (length (catalog_records (trace (snd (main w a initial))))) /\
    0 <= f.
Proof.
  unfold main, try_except, bind, ret, raise, finally.
  destruct (negb (path_exists w (excel_file a))); [discriminate|].
  destruct (read_excel w (excel_file a) (sheet a)) as [df|]; [|discriminate].
  destruct (bool_decide (column a ∈ columns df)) eqn:Hcol; [|discriminate].
  apply bool_decide_eq_true_1 in Hcol. cbn [negb].
  destruct (mkdtemp w) as [temp_dir|]; [|discriminate].
  destruct (process_rows_ledger a df temp_dir (rows df) 0 0 initial)
    as [r [st' [new [-> [Htr Hr]]]]].
  destruct r as [[s' f']|e].
  2: { rewrite Hr. discriminate. }
  cbn [fst snd]. intros H. injection H as <- <-.
  exists df. split; [reflexivity|]. split; [assumption|].
  cbn [trace remove_tree set_files]. rewrite Htr. cbn [trace initial app].
  destruct Hr as [Hf [Hl [Hsum [Hs Hf']]]]. rewrite Hf in *.
  repeat split; try assumption; lia.
Qed.

(** X11.  A run that ends normally has sent one request for every row
    whose link cell is a string with more than blanks in it, to the
    resolved link, in the order of the rows, and no other request; the
    two counters add up to the number of these rows. *)
Theorem run_fetches_each_link_once (a : args) (s f : Z) :
  fst (main w a initial) = Ok (s, f) ->
  exists df,
    read_excel w (excel_file a) (sheet a) = Some df /\
    fetched_urls (trace (snd (main w a initial))) = expected_fetches a (rows df) /\
    s + f = Z.of_nat (length (expected_fetches a (rows df))).
Proof.
  intros H. destruct (main_ledger a s f H) as [df [Hdf [_ [Hf [_ [Hsum _]]]]]].
  exists df. now repeat split.
Qed.

(** X12.  At the end of a run that ends normally, the two counters are
    not negative and add up to the number of downloads attempted;
    there are at most as many successes as catalog inserts, at most as
    many catalog inserts as storage uploads, and at most as many
    storage uploads as downloads. *)
Theorem summary_counts_bounded (a : args) (s f : Z) :
  fst (main w a initial) = Ok (s, f) ->
  s + f = Z.of_nat (length (fetched_urls (trace (snd (main w a initial))))) /\
  0 <= f /\
  0 <= s <= Z.of_nat (length (catalog_records (trace (snd (main w a initial))))) /\
  (length (catalog_records (trace (snd (main w a initial))))
   <= length (uploaded_payloads (trace (snd (main w a initial))))
   <= length (fetched_urls (trace (snd (main w a initial)))))%nat.
Proof.
  intros H. destruct (main_ledger a s f H) as [df [_ [_ [Hf [Hl [Hsum [Hs Hf']]]]]]].
  rewrite Hf in Hl |- *. repeat split; try assumption; lia.
Qed.






Lemma storage_call_to_backend (i : nat) (filename content : string) :
  to_backend w (storage_call w (uuid4 w i) filename content).
Proof.
  unfold to_backend, storage_call, upload_headers, content_type_of, auth_headers, storage_url.
  destruct (PyStr.truthy (str_or (guess_type w filename) "application/octet-stream"));
    (split; [reflexivity|]; split; [reflexivity|]; exists i, filename; reflexivity).
Qed.

Lemma catalog_call_to_backend (i : nat) (filename content now : string)
  (metadata : option (gmap string value)) :
  to_backend w (catalog_call w (record_of w (uuid4 w i) filename content now metadata)).
Proof.
  split; [reflexivity|]. split; [reflexivity|]. split; [reflexivity|].
  now exists i.
Qed.

(** X14.  Every [requests.post] of a run is handed both credentials and
    a URL of the configured backend: with bytes, the text
    [SUPABASE_URL/storage/v1/object/documents/{id}/{filename}], [id]
    being an identifier of the source; with a record, the text
    [SUPABASE_URL/rest/v1/documents], the record bearing an identifier
    of the source.  The filename is pasted into the URL as it is: which
    object the service makes of that text is not said here. *)
Theorem post_urls_and_credentials (a : args) (ev : event) :
  ev ∈ trace (snd (main w a initial)) -> to_backend w ev.
Proof.
  revert ev.
  apply (main_invariant w (fun tr _ => forall ev, ev ∈ tr -> to_backend w ev) a).
  - intros ev Hin. now apply elem_of_nil in Hin.
  - intros df row tr n new draws _ _ HI Hcalls ev Hin.
    apply elem_of_app in Hin as [Hin|Hin]; [now apply HI|].
    destruct Hcalls as [|u url d Hu Hr Hd|u url fn c Hu Hr|u url fn c now m Hu Hr Hm];
      repeat (apply elem_of_cons in Hin as [->|Hin]);
      try (now apply elem_of_nil in Hin);
      try exact I;
      try apply storage_call_to_backend;
      apply catalog_call_to_backend.
Qed.

End RunLedger.

(* ===================================================================== *)
(** * The further properties at work on the concrete worlds *)
(* ===================================================================== *)

(** A plain link downloaded in the friendly world. *)
Lemma downloaded_file_holds_body_witness :
  exists url' resp,
    Resolver.resolve "https://example.com/a.pdf" = Py.Ok url' /\
    World.requests_get Demo.friendly (World.n_net World.initial) url' = Some resp /\
    Fetcher.choose_filename Demo.friendly url' (World.g_headers resp) = Py.Ok "a.pdf" /\
    "/tmp/tmpabc/a.pdf" = Fetcher.path_join "/tmp/tmpabc" "a.pdf" /\
    World.files (snd (Fetcher.download_file Demo.friendly "https://example.com/a.pdf"
                        "/tmp/tmpabc" World.initial)) !! "/tmp/tmpabc/a.pdf"
    = Some (Ledger.join_chunks (World.g_chunks resp)) /\
    fst (World.read_file "/tmp/tmpabc/a.pdf"
           (snd (Fetcher.download_file Demo.friendly "https://example.com/a.pdf"
                   "/tmp/tmpabc" World.initial)))
    = Py.Ok (Ledger.join_chunks (World.g_chunks resp)) /\
    fst (World.getsize "/tmp/tmpabc/a.pdf"
           (snd (Fetcher.download_file Demo.friendly "https://example.com/a.pdf"
                   "/tmp/tmpabc" World.initial)))
    = Py.Ok (Z.of_nat (String.length (Ledger.join_chunks (World.g_chunks resp)))).
Proof.
  apply (downloaded_file_holds_body Demo.friendly "https://example.com/a.pdf" "/tmp/tmpabc"
           World.initial "/tmp/tmpabc/a.pdf" "a.pdf").
  reflexivity.
Defined.

(** The stream breaks after [%PDF] and [-1.]: the download fails and
    the six bytes stay. *)
Lemma broken_download_witness :
  fst (Fetcher.download_file Scenarios.web_cut_short "https://example.com/a.pdf"
         "/tmp/tmpabc" World.initial) = Py.Ok None /\
  World.files (snd (Fetcher.download_file Scenarios.web_cut_short
                      "https://example.com/a.pdf" "/tmp/tmpabc" World.initial))
    !! Fetcher.path_join "/tmp/tmpabc" "a.pdf"
  = Some (Ledger.join_chunks (World.g_chunks Scenarios.cut_short)).
Proof.
  apply (broken_download_keeps_partial_file Scenarios.web_cut_short
           "https://example.com/a.pdf" "/tmp/tmpabc" "https://example.com/a.pdf"
           World.initial Scenarios.cut_short "a.pdf"); reflexivity.
Defined.

(** Download and ingestion of a plain link in the friendly world. *)
Lemma uploaded_bytes_witness :
  exists url' resp rest,
    Resolver.resolve "https://example.com/a.pdf" = Py.Ok url' /\
    World.requests_get Demo.friendly (World.n_net World.initial) url' = Some resp /\
    World.trace
      (snd (Ingestor.upload_to_supabase Demo.friendly "/tmp/tmpabc/a.pdf" "a.pdf"
              (Some Demo.url_only)
              (snd (Fetcher.download_file Demo.friendly "https://example.com/a.pdf"
                      "/tmp/tmpabc" World.initial))))
    = World.trace World.initial ++
      World.EvGet url' ::
      World.EvPost (World.SUPABASE_URL Demo.friendly +:+ "/storage/v1/object/documents/" +:+
                    World.uuid4 Demo.friendly (World.n_uuid World.initial) +:+ "/" +:+ "a.pdf")
        (Ingestor.upload_headers Demo.friendly
           (Ingestor.content_type_of Demo.friendly "a.pdf"))
        (World.BData (Ledger.join_chunks (World.g_chunks resp))) :: rest /\
    (rest = [] \/
     exists record,
       rest = [World.EvPost (World.SUPABASE_URL Demo.friendly +:+ "/rest/v1/documents")
                 (Ingestor.insert_headers Demo.friendly) (World.BJson record)] /\
       World.rec_id record = World.uuid4 Demo.friendly (World.n_uuid World.initial) /\
       World.rec_filename record = "a.pdf" /\
       World.rec_filesize record
       = Z.of_nat (String.length (Ledger.join_chunks (World.g_chunks resp)))).
Proof.
  apply (uploaded_bytes_are_downloaded Demo.friendly "https://example.com/a.pdf"
           "/tmp/tmpabc" World.initial "/tmp/tmpabc/a.pdf" "a.pdf" (Some Demo.url_only)).
  reflexivity.
Defined.

(** A sharing link answered with a PDF and no name. *)
Lemma drive_file_is_named_uc_witness :
  exists url',
    Resolver.resolve "https://drive.google.com/file/d/1AbC/view?usp=sharing" = Py.Ok url' /\
    Fetcher.choose_filename Demo.friendly url' [("Content-Type", "application/pdf")]
    = Py.Ok ("uc" +:+ Ledger.guessed_extension Demo.friendly
                        [("Content-Type", "application/pdf")]).
Proof.
  apply (drive_file_is_named_uc Demo.friendly
           "https://drive.google.com/file/d/1AbC/view?usp=sharing"
           [("Content-Type", "application/pdf")]); reflexivity.
Defined.

(** The catalog answers 409: the ingestion fails after its two calls. *)
Lemma catalog_insert_accepted_witness :
  (Ingestor.catalog_accepted
     {| World.status_code := 409; World.text := "conflict"; World.decoded := None |} = true <->
   World.status_code
     {| World.status_code := 409; World.text := "conflict"; World.decoded := None |} = 201 /\
   exists j,
     World.decoded
       {| World.status_code := 409; World.text := "conflict"; World.decoded := None |}
     = Some j /\ Py.json_truthy j = true)
  /\
  fst (Ingestor.upload_to_supabase Scenarios.catalog_refusing "/tmp/tmpabc/a.pdf" "a.pdf"
         (Some Demo.url_only) Demo.downloaded)
  = (if Ingestor.catalog_accepted
          {| World.status_code := 409; World.text := "conflict"; World.decoded := None |}
     then Py.Ok (Some (World.uuid4 Scenarios.catalog_refusing
                         (World.n_uuid Demo.downloaded)))
     else Py.Ok None)
  /\
  World.trace (snd (Ingestor.upload_to_supabase Scenarios.catalog_refusing
                      "/tmp/tmpabc/a.pdf" "a.pdf" (Some Demo.url_only) Demo.downloaded))
  = World.trace Demo.downloaded ++
    [Ingestor.storage_call Scenarios.catalog_refusing
       (World.uuid4 Scenarios.catalog_refusing (World.n_uuid Demo.downloaded))
       "a.pdf" "%PDF-1.4";
     Ingestor.catalog_call Scenarios.catalog_refusing
       (Ingestor.record_of Scenarios.catalog_refusing
          (World.uuid4 Scenarios.catalog_refusing (World.n_uuid Demo.downloaded))
          "a.pdf" "%PDF-1.4"
          (World.now_isoformat Scenarios.catalog_refusing (World.n_clock Demo.downloaded))
          (Some Demo.url_only))].
Proof.
  apply (catalog_insert_accepted Scenarios.catalog_refusing "/tmp/tmpabc/a.pdf" "a.pdf"
           (Some Demo.url_only) Demo.downloaded "%PDF-1.4"
           {| World.status_code := 200; World.text := "";
              World.decoded := Some (Py.JObj [("Key", Py.JStr "documents/k")]) |}
           {| World.status_code := 409; World.text := "conflict"; World.decoded := None |});
    reflexivity.
Defined.

Lemma url_only_non_empty : Demo.url_only <> ∅.
Proof.
  intros H. apply (f_equal (fun m : gmap string Py.value => m !! "url")) in H.
  vm_compute in H. discriminate.
Qed.

(** A type given in the sheet changes nothing. *)
Lemma type_entry_is_ignored_witness :
  Ingestor.upload_to_supabase Demo.friendly "/tmp/tmpabc/a.pdf" "a.pdf"
    (Some (<["type" := Py.VStr "spreadsheet"]> Demo.url_only)) Demo.downloaded
  = Ingestor.upload_to_supabase Demo.friendly "/tmp/tmpabc/a.pdf" "a.pdf"
      (Some Demo.url_only) Demo.downloaded.
Proof.
  apply (type_entry_is_ignored Demo.friendly "/tmp/tmpabc/a.pdf" "a.pdf" Demo.url_only
           (Py.VStr "spreadsheet") Demo.downloaded).
  exact url_only_non_empty.
Defined.

(** A row with an empty date cell and a type; the name column asked
    for is not in the sheet.  The metadata gets the date ['NaT']. *)
Lemma gathered_metadata_witness :
  World.initial = World.initial /\
  Scenarios.undated_metadata !! "url" = Some (Py.VStr "https://example.com/a.pdf") /\
  Scenarios.undated_metadata !! "name"
  = Ledger.cell_of Scenarios.dated_sheet Scenarios.undated_row
      (Orchestrator.name_column Scenarios.dated_args) /\
  Scenarios.undated_metadata !! "author"
  = Ledger.cell_of Scenarios.dated_sheet Scenarios.undated_row
      (Orchestrator.author_column Scenarios.dated_args) /\
  Scenarios.undated_metadata !! "type"
  = Ledger.cell_of Scenarios.dated_sheet Scenarios.undated_row
      (Orchestrator.type_column Scenarios.dated_args) /\
  Scenarios.undated_metadata !! "date" =
    match Ledger.cell_of Scenarios.dated_sheet Scenarios.undated_row
            (Orchestrator.date_column Scenarios.dated_args) with
    | Some (Py.VDatetime iso) => Some (Py.VStr iso)
    | Some Py.VNaT => Some (Py.VStr "NaT")
    | Some (Py.VStr s) => Some (Py.VStr (default s (World.to_datetime Demo.friendly s)))
    | _ => None
    end /\
  (forall k, k ∉ ["url"; "name"; "author"; "date"; "type"] ->
             Scenarios.undated_metadata !! k = None).
Proof.
  apply (gathered_metadata_entries Demo.friendly Scenarios.dated_args Scenarios.dated_sheet
           Scenarios.undated_row (Py.VStr "https://example.com/a.pdf") World.initial
           Scenarios.undated_metadata World.initial).
  reflexivity.
Defined.

(** The same with a date in the cell. *)
Example gathered_metadata_dated :
  Orchestrator.gather_metadata Demo.friendly Scenarios.dated_args Scenarios.dated_sheet
    Scenarios.dated_row (Py.VStr "https://example.com/a.pdf") World.initial
  = (Py.Ok Scenarios.dated_metadata, World.initial).
Proof. reflexivity. Qed.


(** A link cell of Unicode blanks asks for no download. *)
Example no_break_row_not_fetched :
  Ledger.link_text Demo.demo_args Scenarios.no_break_row = None /\
  Ledger.row_fetch Demo.demo_args Scenarios.no_break_row = [].
Proof. split; reflexivity. Qed.

(** The friendly run fetched the two links of its sheet. *)
Lemma run_fetches_each_link_once_witness :
  exists df,
    World.read_excel Demo.friendly (Orchestrator.excel_file Demo.demo_args)
      (Orchestrator.sheet Demo.demo_args) = Some df /\
    World.fetched_urls
      (World.trace (snd (Orchestrator.main Demo.friendly Demo.demo_args World.initial)))
    = Ledger.expected_fetches Demo.demo_args (World.rows df) /\
    2 + 0 = Z.of_nat (length (Ledger.expected_fetches Demo.demo_args (World.rows df))).
Proof.
  apply (run_fetches_each_link_once Demo.friendly Demo.demo_args 2 0).
  vm_compute. reflexivity.
Defined.

Lemma summary_counts_bounded_witness :
  2 + 0 = Z.of_nat (length (World.fetched_urls
                              (World.trace (snd (Orchestrator.main Demo.friendly
                                                   Demo.demo_args World.initial))))) /\
  0 <= 0 /\
  0 <= 2 <= Z.of_nat (length (World.catalog_records
                                (World.trace (snd (Orchestrator.main Demo.friendly
                                                     Demo.demo_args World.initial))))) /\
  (length (World.catalog_records
             (World.trace (snd (Orchestrator.main Demo.friendly Demo.demo_args
                                  World.initial))))
   <= length (Ledger.uploaded_payloads
                (World.trace (snd (Orchestrator.main Demo.friendly Demo.demo_args
                                     World.initial))))
   <= length (World.fetched_urls
                (World.trace (snd (Orchestrator.main Demo.friendly Demo.demo_args
                                     World.initial)))))%nat.
Proof.
  apply (summary_counts_bounded Demo.friendly Demo.demo_args 2 0).
  vm_compute. reflexivity.
Defined.

(** The storage upload of the row with a refusing catalog. *)
Lemma post_urls_and_credentials_witness :
  Ledger.to_backend Scenarios.catalog_refusing
    (World.EvPost "https://proj.example.co/storage/v1/object/documents/u/uc.pdf"
       [("Authorization", "Bearer secret"); ("apikey", "secret");
        ("Content-Type", "application/pdf")]
       (World.BData "%PDF-1.4")).
Proof.
  apply (post_urls_and_credentials Scenarios.catalog_refusing Demo.demo_args).
  vm_compute. right. left.
Defined.
